(** * Ethica backend: the ingredient-extraction route, the OCR script and
      the CORS test route, embedded as effectful programs over JavaScript
      values.

    Sources embedded:
    - the Express handler [app.post("/extract-ingredients", ...)];
    - the script [testOCR] that calls the Vision text detection;
    - [src/backend/server.js], route [app.get("/test-cors", ...)].

    JavaScript strings are sequences of UTF-16 code units, numbers are
    IEEE-754 binary64 values, and the values that reach the programs
    (parsed JSON bodies, decoded service responses) are plain data. *)

From Stdlib Require Import ZArith NArith List String Ascii Bool Lia.
From Stdlib Require Import SpecFloat DecimalString.
Import ListNotations.

Set Implicit Arguments.
Set Warnings "-register-all".

(* ===================================================================== *)
(** ** JavaScript values and the language operations the sources use *)
(* ===================================================================== *)
Module JS.

(** A string is a list of UTF-16 code units. *)
Definition code_unit := N.
Definition jsstring := list code_unit.

(** An ASCII source literal as a JavaScript string. *)
Definition lit (s : string) : jsstring :=
  map N_of_ascii (list_ascii_of_string s).

Fixpoint str_eqb (a b : jsstring) : bool :=
  match a, b with
  | [], [] => true
  | x :: a', y :: b' => N.eqb x y && str_eqb a' b'
  | _, _ => false
  end.

(** Numbers are binary64 floating-point values. *)
Definition number := spec_float.
Definition prec : Z := 53.
Definition emax : Z := 1024.

Definition zero : number := S754_zero false.

(** The number holding a length (an exact conversion below 2^53). *)
Definition Number_of_nat (n : nat) : number :=
  binary_normalize prec emax (Z.of_nat n) 0 false.

(** Plain-data values: what [JSON.parse] yields, plus [undefined]. An object
    is the list of its own properties, looked up by key (first match). *)
Inductive value : Type :=
| VUndefined
| VNull
| VBool (b : bool)
| VNumber (x : number)
| VString (s : jsstring)
| VArray (elems : list value)
| VObject (props : list (jsstring * value)).

(** What can be thrown: a [TypeError] raised by the language itself, the
    error Express raises when a reply is written twice, or whatever an
    external call rejects with. *)
Inductive exn : Type :=
| TypeError
| ErrHttpHeadersSent
| External (reason : value).

Inductive completion (A : Type) : Type :=
| Normal (a : A)
| Throw (e : exn).
Arguments Normal {A} a.
Arguments Throw {A} e.

(** [ToBoolean]: [undefined], [null], [false], [+0], [-0], [NaN] and the
    empty string are falsy, everything else is truthy. *)
Definition ToBoolean (v : value) : bool :=
  match v with
  | VUndefined | VNull => false
  | VBool b => b
  | VNumber (S754_zero _) | VNumber S754_nan => false
  | VNumber _ => true
  | VString [] => false
  | VString (_ :: _) => true
  | VArray _ | VObject _ => true
  end.

Definition is_nullish (v : value) : bool :=
  match v with
  | VUndefined | VNull => true
  | _ => false
  end.

Fixpoint own_prop (props : list (jsstring * value)) (k : jsstring)
  : option value :=
  match props with
  | [] => None
  | (k', v) :: rest => if str_eqb k' k then Some v else own_prop rest k
  end.

Definition has_own (props : list (jsstring * value)) (k : jsstring) : bool :=
  match own_prop props k with Some _ => true | None => false end.

Definition or_undefined (o : option value) : value :=
  match o with Some v => v | None => VUndefined end.

(** A property key as the sources write it: [v.name] with an identifier, or
    [v[i]] with an array index. *)
Inductive key : Type :=
| Name (s : jsstring)
| Index (i : nat).

Definition index_key (i : nat) : jsstring :=
  lit (NilZero.string_of_uint (Nat.to_uint i)).

(** Property read [v.k] / [v[i]]. Reading from [undefined] or [null] throws
    a [TypeError]. The names read by the sources ([text], [length],
    [choices], [message], [content], [textAnnotations], [description]) are
    not defined on any built-in prototype except [length] on strings and
    arrays, so any other name on a primitive or an array is [undefined]. *)
Definition Get (v : value) (k : key) : completion value :=
  match v with
  | VUndefined | VNull => Throw TypeError
  | VBool _ | VNumber _ => Normal VUndefined
  | VString s =>
      match k with
      | Name n =>
          if str_eqb n (lit "length")
          then Normal (VNumber (Number_of_nat (List.length s)))
          else Normal VUndefined
      | Index i =>
          match nth_error s i with
          | Some c => Normal (VString [c])
          | None => Normal VUndefined
          end
      end
  | VArray elems =>
      match k with
      | Name n =>
          if str_eqb n (lit "length")
          then Normal (VNumber (Number_of_nat (List.length elems)))
          else Normal VUndefined
      | Index i => Normal (nth i elems VUndefined)
      end
  | VObject props =>
      match k with
      | Name n => Normal (or_undefined (own_prop props n))
      | Index i => Normal (or_undefined (own_prop props (index_key i)))
      end
  end.

(** [v === n] for a number literal [n]. *)
Definition strict_equals_number (v : value) (n : number) : bool :=
  match v with
  | VNumber x => SFeqb x n
  | _ => false
  end.

(** [String.prototype.trim] removes WhiteSpace and LineTerminator code
    points from both ends. *)
Definition is_white_space (c : code_unit) : bool :=
  ((9 <=? c) && (c <=? 13) || (c =? 32) || (c =? 160) || (c =? 5760)
   || (8192 <=? c) && (c <=? 8202) || (c =? 8232) || (c =? 8233)
   || (c =? 8239) || (c =? 8287) || (c =? 12288) || (c =? 65279))%N.

Fixpoint trim_start (s : jsstring) : jsstring :=
  match s with
  | [] => []
  | c :: rest => if is_white_space c then trim_start rest else s
  end.

Definition trim_end (s : jsstring) : jsstring := rev (trim_start (rev s)).

Definition trim (s : jsstring) : jsstring := trim_end (trim_start s).

(** The method call [v.trim()]: only a string has a callable [trim]. *)
Definition call_trim (v : value) : completion jsstring :=
  match v with
  | VString s => Normal (trim s)
  | _ => Throw TypeError
  end.

Definition cbind {A B} (c : completion A) (f : A -> completion B)
  : completion B :=
  match c with
  | Normal a => f a
  | Throw e => Throw e
  end.

Section ToString.

(** [Number::toString], the shortest round-trip decimal rendering of a
    binary64 value, is a primitive of the language. *)
Variable NumberToString : number -> jsstring.

(** [ToString] on plain data. An array is joined with commas, with
    [undefined] and [null] elements rendered empty. A plain object
    renders through [Object.prototype.toString] unless an own (hence not
    callable) [toString] property shadows it, and then the conversion
    throws. *)
Fixpoint ToString (v : value) : completion jsstring :=
  match v with
  | VUndefined => Normal (lit "undefined")
  | VNull => Normal (lit "null")
  | VBool true => Normal (lit "true")
  | VBool false => Normal (lit "false")
  | VNumber x => Normal (NumberToString x)
  | VString s => Normal s
  | VArray elems =>
      (fix join (l : list value) : completion jsstring :=
         match l with
         | [] => Normal []
         | x :: rest =>
             let elem :=
               match x with
               | VUndefined | VNull => Normal []
               | _ => ToString x
               end in
             match rest with
             | [] => elem
             | _ :: _ =>
                 cbind elem (fun a =>
                 cbind (join rest) (fun b =>
                 Normal (a ++ lit "," ++ b)))
             end
         end) elems
  | VObject props =>
      if has_own props (lit "toString")
      then Throw TypeError
      else Normal (lit "[object Object]")
  end.

End ToString.

(** A template literal with one substitution: [`prefix${v}`]. *)
Definition template (NumberToString : number -> jsstring)
  (prefix : jsstring) (v : value) : completion jsstring :=
  cbind (ToString NumberToString v) (fun s => Normal (prefix ++ s)).

(** Optional chaining [v?.name]. *)
Definition optional_get (v : value) (n : jsstring) : completion value :=
  if is_nullish v then Normal VUndefined else Get v (Name n).

Definition is_high_surrogate (c : code_unit) : bool :=
  ((55296 <=? c) && (c <=? 56319))%N.
Definition is_low_surrogate (c : code_unit) : bool :=
  ((56320 <=? c) && (c <=? 57343))%N.

(** Array destructuring [const [x] = v]: the first item [v]'s iterator
    yields. Arrays yield their elements and strings their code points;
    no other plain-data value is iterable. *)
Definition destructure_first (v : value) : completion value :=
  match v with
  | VArray elems => Normal (nth 0 elems VUndefined)
  | VString [] => Normal VUndefined
  | VString (c :: rest) =>
      match rest with
      | d :: _ =>
          if is_high_surrogate c && is_low_surrogate d
          then Normal (VString [c; d])
          else Normal (VString [c])
      | [] => Normal (VString [c])
      end
  | _ => Throw TypeError
  end.

End JS.

(* ===================================================================== *)
(** ** Effects: a trace of observable events, exceptions, try/catch *)
(* ===================================================================== *)
Module Eff.
Import JS.

(** An argument printed by [console.error] is a value or a caught error. *)
Inductive log_arg : Type :=
| LogValue (v : value)
| LogError (e : exn).

(** Observable events, in the order they happen. [X] is the type of the
    outbound calls of the program at hand. *)
Inductive event (X : Type) : Type :=
| ConsoleLog (args : list value)
| ConsoleError (args : list log_arg)
| Call (x : X)
| Reply (status : Z) (body : value).
Arguments ConsoleLog {X} args.
Arguments ConsoleError {X} args.
Arguments Call {X} x.
Arguments Reply {X} status body.

(** A state that carries a trace. *)
Class Traced (X S : Type) : Type := record : event X -> S -> S.

#[export] Instance Traced_list (X : Type) : Traced X (list (event X)) :=
  fun e t => t ++ [e].

Section Monad.
Variable S : Type.

(** A computation runs on a state and completes normally or abruptly; the
    state reached is kept either way, as a [catch] block sees the effects
    of the [try] block that threw. *)
Definition M (A : Type) : Type := S -> completion A * S.

Definition ret {A} (a : A) : M A := fun s => (Normal a, s).

Definition bind {A B} (m : M A) (f : A -> M B) : M B :=
  fun s =>
    match m s with
    | (Normal a, s') => f a s'
    | (Throw e, s') => (Throw e, s')
    end.

Definition lift {A} (c : completion A) : M A := fun s => (c, s).

Definition try_catch {A} (body : M A) (handler : exn -> M A) : M A :=
  fun s =>
    match body s with
    | (Normal a, s') => (Normal a, s')
    | (Throw e, s') => handler e s'
    end.

Definition emit {X} `{Traced X S} (e : event X) : M unit :=
  fun s => (Normal tt, record e s).

(** An outbound call [x] and its outcome. For [await call(...)] the
    outcome is what the promise settled to: a value the function resumes
    with, or a rejection that [await] rethrows. *)
Definition invoke {X A} `{Traced X S} (x : X) (outcome : completion A)
  : M A :=
  fun s => (outcome, record (Call x) s).

End Monad.

Arguments ret {S A} a.
Arguments lift {S A} c.

Declare Scope eff_scope.
Delimit Scope eff_scope with eff.
Notation "x <- c ;; k" := (bind c (fun x => k))
  (at level 61, c at next level, right associativity) : eff_scope.
Notation "c ;; k" := (bind c (fun _ => k))
  (at level 61, right associativity) : eff_scope.

Fixpoint replies {X} (t : list (event X)) : list (Z * value) :=
  match t with
  | [] => []
  | Reply status body :: t' => (status, body) :: replies t'
  | _ :: t' => replies t'
  end.

Fixpoint calls {X} (t : list (event X)) : list X :=
  match t with
  | [] => []
  | Call x :: t' => x :: calls t'
  | _ :: t' => calls t'
  end.

End Eff.

(* ===================================================================== *)
(** ** Express: the response object *)
(* ===================================================================== *)
Module Express.
Import JS Eff.

Record request : Type := { body : value }.

(** The state a handler runs on: the trace, and the response object [res]
    with its status code (200 until set) and whether it was sent. *)
Record world (X : Type) : Type := {
  trace : list (event X);
  statusCode : Z;
  headersSent : bool
}.
Arguments trace {X} w.
Arguments statusCode {X} w.
Arguments headersSent {X} w.

Definition fresh (X : Type) : world X :=
  {| trace := []; statusCode := 200; headersSent := false |}.

#[export] Instance Traced_world (X : Type) : Traced X (world X) :=
  fun e w =>
    {| trace := trace w ++ [e];
       statusCode := statusCode w;
       headersSent := headersSent w |}.

(** [res.status(code)] *)
Definition res_status {X} (code : Z) : M (world X) unit :=
  fun w =>
    (Normal tt,
     {| trace := trace w; statusCode := code; headersSent := headersSent w |}).

(** [res.json(body)]: sends [body] with the current status code; writing a
    response that was already sent throws. *)
Definition res_json {X} (b : value) : M (world X) unit :=
  fun w =>
    if headersSent w then (Throw ErrHttpHeadersSent, w)
    else
      (Normal tt,
       {| trace := trace w ++ [Reply (statusCode w) b];
          statusCode := statusCode w;
          headersSent := true |}).

End Express.

(* ===================================================================== *)
(** ** The route [POST /extract-ingredients] *)
(* ===================================================================== *)
Module ExtractIngredients.
Import JS Eff Express.
Local Open Scope eff_scope.

Record message : Type := { role : jsstring; content : jsstring }.

(** The argument of [openai.chat.completions.create]. *)
Record chat_request : Type := {
  model : jsstring;
  messages : list message;
  temperature : number
}.

Definition system_content : jsstring :=
  lit "You are an assistant that extracts ingredients from text.".

Definition user_prefix : jsstring :=
  lit "Extract a clean list of ingredients from this text: ".

Definition completion_request (user_content : jsstring) : chat_request :=
  {| model := lit "gpt-5-mini";
     messages :=
       [ {| role := lit "system"; content := system_content |};
         {| role := lit "user"; content := user_content |} ];
     temperature := zero |}.

Definition no_text_body : value :=
  VObject [(lit "error", VString (lit "No text provided"))].

Definition failed_body : value :=
  VObject [(lit "error", VString (lit "Failed to extract ingredients"))].

Definition ingredients_body (ingredients : jsstring) : value :=
  VObject [(lit "ingredients", VString ingredients)].

(** The expression [response.choices[0].message.content.trim()]. *)
Definition trimmed_content (response : value) : completion jsstring :=
  cbind (Get response (Name (lit "choices"))) (fun choices =>
  cbind (Get choices (Index 0)) (fun choice =>
  cbind (Get choice (Name (lit "message"))) (fun msg =>
  cbind (Get msg (Name (lit "content"))) call_trim))).

Section Handler.

Variable NumberToString : number -> jsstring.

(** What the promise returned by [openai.chat.completions.create] settles
    to, for each request: the decoded response or the error it rejects
    with. The handler has no timeout, so a promise that never settles would
    leave it suspended at the [await]; such a run has no continuation to
    describe and is not part of the model. *)
Variable create : chat_request -> completion value.

(** [async (req, res) => { ... }]. An abrupt completion of the whole
    computation is the rejection of the promise the handler returns. *)
Definition extract_ingredients (req : request)
  : M (world chat_request) unit :=
  text <- lift (Get (body req) (Name (lit "text"))) ;;
  len <- lift (optional_get text (lit "length")) ;;
  emit (ConsoleLog [VString (lit "Received text length:"); len]) ;;
  if negb (ToBoolean text) then
    res_status 400 ;;
    res_json no_text_body
  else
    try_catch
      (user_content <- lift (template NumberToString user_prefix text) ;;
       response <- invoke (completion_request user_content)
                          (create (completion_request user_content)) ;;
       ingredients <- lift (trimmed_content response) ;;
       res_json (ingredients_body ingredients))
      (fun err =>
         emit (ConsoleError [LogError err]) ;;
         res_status 500 ;;
         res_json failed_body).

(** One request, served on a fresh response object. *)
Definition handle (req : request) : completion unit * world chat_request :=
  extract_ingredients req (fresh chat_request).

(** How the handler's promise settled, the replies written and the calls
    made to the chat-completion service while serving [req]. *)
Definition outcome (req : request) : completion unit := fst (handle req).
Definition sent (req : request) : list (Z * value) :=
  replies (trace (snd (handle req))).
Definition adapter_calls (req : request) : list chat_request :=
  calls (trace (snd (handle req))).

End Handler.

End ExtractIngredients.

(* ===================================================================== *)
(** ** The OCR script [testOCR] *)
(* ===================================================================== *)
Module Ocr.
Import JS Eff.
Local Open Scope eff_scope.

Definition buffer := list Byte.byte.

(** The outbound calls of the script: the file read and the text-detection
    request [{ image: { content } }]. *)
Inductive ocr_call : Type :=
| ReadFileSync (path : jsstring)
| TextDetection (image_content : buffer).

Definition imagePath : jsstring := lit "./test-image.jpg".

Definition no_text_line : list value := [VString (lit "No text detected!")].

Definition text_line (description : value) : list value :=
  [VString (lit "Text detected:" ++ [10%N]); description].

Definition error_line (err : exn) : list log_arg :=
  [LogValue (VString (lit "Error with Google Vision API:")); LogError err].

(** The test [!detections || detections.length === 0]. *)
Definition no_detections (detections : value) : completion bool :=
  if negb (ToBoolean detections) then Normal true
  else cbind (Get detections (Name (lit "length")))
             (fun len => Normal (strict_equals_number len zero)).

Section Script.

(** [fs.readFileSync]: the file's bytes, or the error it throws. *)
Variable readFileSync : jsstring -> completion buffer.

(** What the promise of [client.textDetection] settles to. *)
Variable textDetection : buffer -> completion value.

Definition testOCR : M (list (event ocr_call)) unit :=
  try_catch
    (imageBuffer <- invoke (ReadFileSync imagePath)
                           (readFileSync imagePath) ;;
     resolved <- invoke (TextDetection imageBuffer)
                        (textDetection imageBuffer) ;;
     result <- lift (destructure_first resolved) ;;
     detections <- lift (Get result (Name (lit "textAnnotations"))) ;;
     empty <- lift (no_detections detections) ;;
     if (empty : bool) then
       emit (ConsoleLog no_text_line)
     else
       first <- lift (Get detections (Index 0)) ;;
       description <- lift (Get first (Name (lit "description"))) ;;
       emit (ConsoleLog (text_line description)))
    (fun err => emit (ConsoleError (error_line err))).

(** The script is started once, on an empty trace. *)
Definition run : completion unit * list (event ocr_call) := testOCR [].

End Script.

End Ocr.

(* ===================================================================== *)
(** ** [src/backend/server.js]: the route [GET /test-cors] *)
(* ===================================================================== *)
Module Server.
Import JS Eff Express.

(** The outbound calls of this server: none. *)
Definition no_call := Empty_set.

(** U+2705, the check mark that opens the message. *)
Definition check_mark : code_unit := 9989%N.

Definition cors_message : jsstring :=
  check_mark :: lit " CORS is working properly".

(** [(req, res) => { res.json({ message: ... }); }] *)
Definition test_cors (req : request) : M (world no_call) unit :=
  res_json (VObject [(lit "message", VString cors_message)]).

Definition serve (req : request) : completion unit * world no_call :=
  test_cors req (fresh no_call).

Definition served (req : request) : list (Z * value) :=
  replies (trace (snd (serve req))).

End Server.

(* ===================================================================== *)
(** ** Concrete requests and service behaviours used in examples *)
(* ===================================================================== *)
Module Samples.
Import JS Eff Express ExtractIngredients.

Definition flour_text : jsstring :=
  lit "2 cups flour, 1 egg, a pinch of salt".

Definition flour_request : request :=
  {| body := VObject [(lit "text", VString flour_text)] |}.

Definition empty_request : request := {| body := VObject [] |}.

Definition zero_request : request :=
  {| body := VObject [(lit "text", VNumber (S754_zero false))] |}.

(** A completion whose first choice reads [" Flour\nEgg\nSalt\n"]. *)
Definition flour_content : jsstring :=
  lit " Flour" ++ [10%N] ++ lit "Egg" ++ [10%N] ++ lit "Salt" ++ [10%N].

Definition flour_message : value :=
  VObject [(lit "role", VString (lit "assistant"));
           (lit "content", VString flour_content)].

Definition flour_choice : value :=
  VObject [(lit "index", VNumber (S754_zero false));
           (lit "message", flour_message)].

Definition flour_response : value :=
  VObject [(lit "id", VString (lit "chatcmpl-1"));
           (lit "choices", VArray [flour_choice])].

Definition create_flour (_ : chat_request) : completion value :=
  Normal flour_response.

Definition quota_error : exn :=
  External (VObject [(lit "status", VString (lit "429"))]).

Definition create_fails (_ : chat_request) : completion value :=
  Throw quota_error.

(** A rendering of numbers for examples in which no number is rendered. *)
Definition render_number (_ : number) : jsstring := lit "NaN".

(** Vision responses: one annotation, no annotation, no annotation field. *)
Definition one_annotation : value :=
  VArray [VObject [(lit "textAnnotations",
                    VArray [VObject [(lit "description",
                                      VString (lit "SUGAR, SALT"))]])]].

Definition no_annotation : value :=
  VArray [VObject [(lit "textAnnotations", VArray [])]].

Definition no_annotation_field : value := VArray [VObject []].

Definition image_bytes : list Byte.byte := [Byte.xff; Byte.xd8; Byte.xff].

Definition read_image (_ : jsstring) : completion (list Byte.byte) :=
  Normal image_bytes.

Definition read_fails (_ : jsstring) : completion (list Byte.byte) :=
  Throw (External (VObject [(lit "code", VString (lit "ENOENT"))])).

Definition detect (response : value) (_ : list Byte.byte)
  : completion value :=
  Normal response.

Definition detect_fails (_ : list Byte.byte) : completion value :=
  Throw quota_error.

End Samples.

(* ===================================================================== *)
(** ** The OCR script as a process: [testOCR();] *)
(* ===================================================================== *)
Module OcrProcess.
Import JS Eff Ocr.

(** What a detection request does in the process. The client returns a
    promise, which settles to [settled]; it may also reject promises it
    keeps to itself ([stray]), and those the [try] block around the [await]
    cannot reach. *)
Record detection : Type := {
  settled : completion value;
  stray : list exn
}.

Section Process.

Variable readFileSync : jsstring -> completion buffer.
Variable client : buffer -> detection.

(** The steps of [testOCR] itself. *)
Definition script : completion unit * list (event ocr_call) :=
  run readFileSync (fun buf => settled (client buf)).

(** The rejected promises that nothing handles: the one [testOCR()]
    returns, which the last line of the module drops, and the client's own
    for each request made. The module installs no handler for them. *)
Definition unhandled : list exn :=
  match fst script with
  | Throw e => [e]
  | Normal _ => []
  end
  ++ flat_map (fun c =>
                 match c with
                 | TextDetection buf => stray (client buf)
                 | ReadFileSync _ => []
                 end)
              (calls (snd script)).

(** Node ends a process with exit code 1 on a rejection that nothing
    handles, and with 0 once there is nothing left to do. *)
Definition exit_code : Z :=
  match unhandled with
  | [] => 0
  | _ :: _ => 1
  end.

End Process.

End OcrProcess.

(* ===================================================================== *)
(** ** Reading a trace *)
(* ===================================================================== *)
Module Observe.
Import JS Eff.

(** The events that print on the console. *)
Definition is_console {X} (e : event X) : bool :=
  match e with
  | ConsoleLog _ | ConsoleError _ => true
  | Call _ | Reply _ _ => false
  end.

End Observe.

(* ===================================================================== *)
(** ** Further requests and service behaviours used in examples *)
(* ===================================================================== *)
Module MoreSamples.
Import JS Eff Express ExtractIngredients Samples.

Definition no_body_request : request := {| body := VUndefined |}.

(** [{"text": {"toString": 1}}] *)
Definition shadowed_request : request :=
  {| body := VObject [(lit "text",
                       VObject [(lit "toString",
                                 VNumber (Number_of_nat 1))])] |}.

(** [{"text": {"a": null}}] *)
Definition object_request : request :=
  {| body := VObject [(lit "text", VObject [(lit "a", VNull)])] |}.

(** A completion whose only choice carries [content: null]. *)
Definition null_content_message : value :=
  VObject [(lit "role", VString (lit "assistant")); (lit "content", VNull)].

Definition null_content_choice : value :=
  VObject [(lit "message", null_content_message)].

Definition null_content_response : value :=
  VObject [(lit "choices", VArray [null_content_choice])].

Definition create_null_content (_ : chat_request) : completion value :=
  Normal null_content_response.

(** A completion whose content is a space and a line feed. *)
Definition blank_content : jsstring := [32%N; 10%N].

Definition blank_message : value :=
  VObject [(lit "content", VString blank_content)].

Definition blank_choice : value := VObject [(lit "message", blank_message)].

Definition blank_response : value :=
  VObject [(lit "choices", VArray [blank_choice])].

Definition create_blank (_ : chat_request) : completion value :=
  Normal blank_response.

(** Vision responses: an annotation without a description, and a resolved
    array with nothing in it. *)
Definition bare_annotation : value :=
  VArray [VObject [(lit "textAnnotations", VArray [VObject []])]].

Definition nothing_resolved : value := VArray [].

(** A client without credentials: the request's promise rejects, and so
    does a promise the client keeps to itself. *)
Definition credentials_error : exn :=
  External (VObject [(lit "message",
                      VString (lit "Could not load the default credentials"))]).

Definition client_without_credentials (_ : list Byte.byte)
  : OcrProcess.detection :=
  {| OcrProcess.settled := Throw credentials_error;
     OcrProcess.stray := [credentials_error] |}.

(** A client that fails only through the promise it returns. *)
Definition client_over_quota (_ : list Byte.byte) : OcrProcess.detection :=
  {| OcrProcess.settled := Throw quota_error; OcrProcess.stray := [] |}.

End MoreSamples.

(* ===================================================================== *)
(** * Properties *)
(* ===================================================================== *)

(** ** Facts about the language operations *)
Module JSFacts.
Import JS.

(** *** Lengths as numbers: only the empty length is [=== 0] *)

Lemma shr_1_m (mrs : shr_record) :
  (0 <= shr_m mrs)%Z -> shr_m (shr_1 mrs) = Z.div2 (shr_m mrs).
Proof.
  destruct mrs as [m r s]; simpl.
  destruct m as [|[q|q|]|q]; simpl; intros H; try reflexivity; lia.
Qed.

Lemma iter_shr_m (k : positive) :
  forall mrs, (0 <= shr_m mrs)%Z ->
    shr_m (iter_pos shr_1 k mrs) = Z.shiftr (shr_m mrs) (Zpos k).
Proof.
  assert (D : forall m, Z.div2 m = Z.shiftr m 1)
    by (intros; now rewrite Z.div2_spec).
  induction k as [k IH|k IH|]; intros mrs Hm; simpl iter_pos.
  - assert (H1 : (0 <= shr_m (shr_1 mrs))%Z).
    { rewrite shr_1_m, D by assumption. now apply Z.shiftr_nonneg. }
    assert (H2 : (0 <= shr_m (iter_pos shr_1 k (shr_1 mrs)))%Z).
    { rewrite IH by assumption. now apply Z.shiftr_nonneg. }
    rewrite IH, IH, shr_1_m, D by assumption.
    rewrite !Z.shiftr_shiftr by lia. f_equal; lia.
  - assert (H2 : (0 <= shr_m (iter_pos shr_1 k mrs))%Z).
    { rewrite IH by assumption. now apply Z.shiftr_nonneg. }
    rewrite IH, IH by assumption.
    rewrite !Z.shiftr_shiftr by lia. f_equal; lia.
  - rewrite shr_1_m, D by assumption. reflexivity.
Qed.

Lemma digits2_pos_lower (q : positive) :
  (2 ^ (Zpos (digits2_pos q) - 1) <= Zpos q)%Z.
Proof.
  induction q as [q IH|q IH|]; simpl digits2_pos.
  - rewrite Pos2Z.inj_succ.
    replace (Z.succ (Zpos (digits2_pos q)) - 1)%Z
      with (Z.succ (Zpos (digits2_pos q) - 1))%Z by lia.
    rewrite Z.pow_succ_r by lia. lia.
  - rewrite Pos2Z.inj_succ.
    replace (Z.succ (Zpos (digits2_pos q)) - 1)%Z
      with (Z.succ (Zpos (digits2_pos q) - 1))%Z by lia.
    rewrite Z.pow_succ_r by lia. lia.
  - simpl. lia.
Qed.

Lemma shiftr_positive (q : positive) (n : Z) :
  (0 <= n < Zpos (digits2_pos q))%Z -> (0 < Z.shiftr (Zpos q) n)%Z.
Proof.
  intros [H0 H1]. rewrite Z.shiftr_div_pow2 by assumption.
  apply Z.div_str_pos. split.
  - apply Z.pow_pos_nonneg; lia.
  - apply Z.le_trans with (2 ^ (Zpos (digits2_pos q) - 1))%Z.
    + apply Z.pow_le_mono_r; lia.
    + apply digits2_pos_lower.
Qed.

(** Away from the subnormal range, shifting a positive mantissa into the
    format leaves it positive. *)
Lemma shr_fexp_positive (q : positive) (e : Z) (l : location) :
  (-1022 <= e)%Z ->
  exists q' e' r s,
    shr_fexp prec emax (Zpos q) e l = (Build_shr_record (Zpos q') r s, e')
    /\ (e <= e')%Z.
Proof.
  intros He.
  unfold shr_fexp, shr, fexp, SpecFloat.emin, prec, emax. simpl Zdigits2.
  set (d := Zpos (digits2_pos q)).
  assert (Hd : (1 <= d)%Z) by (unfold d; lia).
  destruct (Z.max (d + e - 53) (3 - 1024 - 53) - e)%Z as [|n|n] eqn:En.
  - destruct l as [|[| |]]; simpl; do 4 eexists; split; try reflexivity; lia.
  - set (mrs := shr_record_of_loc (Zpos q) l).
    assert (Hm : shr_m mrs = Zpos q) by (destruct l as [|[| |]]; reflexivity).
    pose proof (@iter_shr_m n mrs) as Hs. rewrite Hm in Hs.
    specialize (Hs ltac:(lia)).
    assert (Hp : (0 < Z.shiftr (Zpos q) (Zpos n))%Z).
    { apply shiftr_positive. fold d. lia. }
    destruct (iter_pos shr_1 n mrs) as [m' r' s']. simpl in Hs. subst m'.
    destruct (Z.shiftr (Zpos q) (Zpos n)) as [|q'|q']; try lia.
    do 4 eexists; split; [reflexivity | lia].
  - destruct l as [|[| |]]; simpl; do 4 eexists; split; try reflexivity; lia.
Qed.

Lemma round_nearest_even_positive (q : positive) (l : location) :
  exists q', round_nearest_even (Zpos q) l = Zpos q'.
Proof.
  destruct l as [|[| |]]; simpl; try (eexists; reflexivity).
  destruct q; simpl; eexists; reflexivity.
Qed.

Lemma binary_round_aux_nonzero (q : positive) (e : Z) (l : location) :
  (-1022 <= e)%Z ->
  SFeqb (binary_round_aux prec emax false (Zpos q) e l) zero = false.
Proof.
  intros He. unfold binary_round_aux.
  destruct (@shr_fexp_positive q e l He) as (q1 & e1 & r1 & s1 & E1 & He1).
  rewrite E1. cbn [shr_m].
  destruct (@round_nearest_even_positive q1
              (loc_of_shr_record (Build_shr_record (Zpos q1) r1 s1)))
    as (q2 & E2).
  rewrite E2.
  destruct (@shr_fexp_positive q2 e1 loc_Exact ltac:(lia))
    as (q3 & e3 & r3 & s3 & E3 & He3).
  rewrite E3. cbn [shr_m].
  destruct (e3 <=? emax - prec)%Z; reflexivity.
Qed.

Lemma Number_of_nat_zero (n : nat) :
  SFeqb (Number_of_nat n) zero = true <-> n = 0%nat.
Proof.
  split.
  - destruct n as [|n]; [reflexivity|]. intros H. exfalso.
    unfold Number_of_nat, binary_normalize in H.
    destruct (Z.of_nat (S n)) as [|p|p] eqn:E; try lia.
    unfold binary_round, shl_align, fexp, SpecFloat.emin, prec, emax in H.
    set (d := Zpos (digits2_pos p)) in H.
    assert (Hd : (1 <= d)%Z) by (unfold d; lia).
    destruct (Z.max (d + 0 - 53) (3 - 1024 - 53) - 0)%Z as [|k|k] eqn:Ek;
      fold prec emax in H;
      match type of H with
      | SFeqb (binary_round_aux _ _ _ (Zpos ?q) ?e ?l) _ = _ =>
          rewrite (@binary_round_aux_nonzero q e l) in H; [discriminate|]
      end;
      try (change (-1022 <= Z.max (d + 0 - 53) (3 - 1024 - 53))%Z); lia.
  - intros ->. reflexivity.
Qed.

(** *** Property reads *)

Lemma ToBoolean_true_not_nullish (v : value) :
  ToBoolean v = true -> is_nullish v = false.
Proof. destruct v; simpl; congruence. Qed.

Lemma Get_not_nullish (v : value) (k : key) :
  is_nullish v = false -> exists x, Get v k = Normal x.
Proof.
  destruct v as [| |b|x|s|l|ps]; simpl; try discriminate; intros _;
    destruct k as [n|i]; try (eexists; reflexivity).
  - destruct (str_eqb n (lit "length")); eexists; reflexivity.
  - destruct (nth_error s i); eexists; reflexivity.
  - destruct (str_eqb n (lit "length")); eexists; reflexivity.
Qed.

Lemma optional_get_total (v : value) (n : jsstring) :
  exists x, optional_get v n = Normal x.
Proof.
  unfold optional_get. destruct (is_nullish v) eqn:E.
  - eexists; reflexivity.
  - now apply Get_not_nullish.
Qed.

(** *** [trim] removes whitespace, and only whitespace, from both ends *)

Lemma trim_start_split (s : jsstring) :
  exists l, s = l ++ trim_start s /\ forallb is_white_space l = true.
Proof.
  induction s as [|c s (l & E & W)]; simpl.
  - exists []. split; reflexivity.
  - destruct (is_white_space c) eqn:Ec.
    + exists (c :: l). simpl. rewrite Ec, W, <- E. split; reflexivity.
    + exists []. split; reflexivity.
Qed.

Lemma trim_start_head (s : jsstring) (c : code_unit) (rest : jsstring) :
  trim_start s = c :: rest -> is_white_space c = false.
Proof.
  induction s as [|x s IH]; simpl; [discriminate|].
  destruct (is_white_space x) eqn:Ex; [exact IH|].
  intros E. injection E as -> _. exact Ex.
Qed.

Lemma trim_end_split (s : jsstring) :
  exists r, s = trim_end s ++ r /\ forallb is_white_space r = true.
Proof.
  unfold trim_end. destruct (trim_start_split (rev s)) as (l & E & W).
  exists (rev l). split.
  - rewrite <- rev_app_distr, <- E, rev_involutive. reflexivity.
  - rewrite forallb_forall in *. intros x Hx. apply W, in_rev, Hx.
Qed.

Lemma trim_split (s : jsstring) :
  exists l r,
    s = l ++ trim s ++ r
    /\ forallb is_white_space l = true
    /\ forallb is_white_space r = true.
Proof.
  destruct (trim_start_split s) as (l & El & Wl).
  destruct (trim_end_split (trim_start s)) as (r & Er & Wr).
  exists l, r. unfold trim. rewrite <- Er. auto.
Qed.

Lemma trim_start_keeps_last (l : jsstring) (c : code_unit) :
  is_white_space c = false -> exists l', trim_start (l ++ [c]) = l' ++ [c].
Proof.
  intros Hc. induction l as [|x l (l' & IH)]; simpl.
  - rewrite Hc. exists []. reflexivity.
  - destruct (is_white_space x).
    + exists l'. exact IH.
    + exists (x :: l). reflexivity.
Qed.

(** The trimmed string neither starts nor ends with whitespace. *)
Lemma trim_ends (s : jsstring) :
  (forall c rest, trim s = c :: rest -> is_white_space c = false)
  /\ (forall c front, trim s = front ++ [c] -> is_white_space c = false).
Proof.
  unfold trim, trim_end. split.
  - intros c rest E.
    destruct (trim_start s) as [|x t] eqn:Es; [discriminate|].
    pose proof (@trim_start_head s x t Es) as Hx.
    simpl rev in E.
    destruct (@trim_start_keeps_last (rev t) x Hx) as (l' & El).
    rewrite El, rev_app_distr in E. simpl in E. congruence.
  - intros c front E.
    apply (f_equal (@rev code_unit)) in E.
    rewrite rev_involutive, rev_app_distr in E. simpl in E.
    exact (@trim_start_head _ _ _ E).
Qed.

End JSFacts.

(** ** Facts about traces *)
Module EffFacts.
Import JS Eff.

Lemma bind_lift S A B (c : completion A) (f : A -> M S B) (s : S) :
  bind (lift c) f s =
  match c with Normal a => f a s | Throw e => (Throw e, s) end.
Proof. destruct c; reflexivity. Qed.

End EffFacts.

(** ** The route [POST /extract-ingredients] *)
Module ExtractIngredientsSpec.
Import JS Eff Express ExtractIngredients JSFacts EffFacts.

Lemma trimmed_content_intro (response choices choice msg : value)
  (c : jsstring) :
  Get response (Name (lit "choices")) = Normal choices ->
  Get choices (Index 0) = Normal choice ->
  Get choice (Name (lit "message")) = Normal msg ->
  Get msg (Name (lit "content")) = Normal (VString c) ->
  trimmed_content response = Normal (trim c).
Proof.
  intros H1 H2 H3 H4. unfold trimmed_content.
  rewrite H1; cbn [cbind]. rewrite H2; cbn [cbind].
  rewrite H3; cbn [cbind]. rewrite H4; reflexivity.
Qed.

Lemma trimmed_content_inv (response : value) (i : jsstring) :
  trimmed_content response = Normal i ->
  exists choices choice msg c,
    Get response (Name (lit "choices")) = Normal choices
    /\ Get choices (Index 0) = Normal choice
    /\ Get choice (Name (lit "message")) = Normal msg
    /\ Get msg (Name (lit "content")) = Normal (VString c)
    /\ i = trim c.
Proof.
  unfold trimmed_content. intros H.
  destruct (Get response (Name (lit "choices"))) as [choices|] eqn:E1;
    [|discriminate]; cbn [cbind] in H.
  destruct (Get choices (Index 0)) as [choice|] eqn:E2;
    [|discriminate]; cbn [cbind] in H.
  destruct (Get choice (Name (lit "message"))) as [msg|] eqn:E3;
    [|discriminate]; cbn [cbind] in H.
  destruct (Get msg (Name (lit "content"))) as [cont|] eqn:E4;
    [|discriminate]; cbn [cbind] in H.
  destruct cont; try discriminate. injection H as <-.
  do 4 eexists. repeat split; eauto.
Qed.

Section Handler.

Variable NumberToString : number -> jsstring.
Variable create : chat_request -> completion value.

Local Abbreviation handle := (handle NumberToString create).
Local Abbreviation outcome := (outcome NumberToString create).
Local Abbreviation sent := (sent NumberToString create).
Local Abbreviation adapter_calls := (adapter_calls NumberToString create).

(** The run on a falsy [text]: the length is logged, then the 400 reply
    is written; the [try] block is never entered. *)
Lemma handle_falsy (req : request) (text : value) :
  Get (body req) (Name (lit "text")) = Normal text ->
  ToBoolean text = false ->
  exists len,
    handle req =
    (Normal tt,
     {| trace := [ConsoleLog [VString (lit "Received text length:"); len];
                  Reply 400 no_text_body];
        statusCode := 400;
        headersSent := true |}).
Proof.
  intros Ht Hf. destruct (optional_get_total text (lit "length")) as [len Hl].
  exists len. unfold ExtractIngredients.handle, extract_ingredients.
  rewrite bind_lift, Ht, bind_lift, Hl.
  unfold bind at 1. unfold emit at 1. rewrite Hf. reflexivity.
Qed.

(** The run on a truthy [text], by what the [try] block meets. *)
Lemma handle_truthy (req : request) (text : value) :
  Get (body req) (Name (lit "text")) = Normal text ->
  ToBoolean text = true ->
  exists len,
    let log := ConsoleLog [VString (lit "Received text length:"); len] in
    handle req =
    match template NumberToString user_prefix text with
    | Throw e =>
        (Normal tt,
         {| trace := [log; ConsoleError [LogError e]; Reply 500 failed_body];
            statusCode := 500; headersSent := true |})
    | Normal user_content =>
        let rq := completion_request user_content in
        match cbind (create rq) trimmed_content with
        | Normal ingredients =>
            (Normal tt,
             {| trace := [log; Call rq;
                          Reply 200 (ingredients_body ingredients)];
                statusCode := 200; headersSent := true |})
        | Throw e =>
            (Normal tt,
             {| trace := [log; Call rq; ConsoleError [LogError e];
                          Reply 500 failed_body];
                statusCode := 500; headersSent := true |})
        end
    end.
Proof.
  intros Ht Hf. destruct (optional_get_total text (lit "length")) as [len Hl].
  exists len. unfold ExtractIngredients.handle, extract_ingredients.
  rewrite bind_lift, Ht, bind_lift, Hl.
  unfold bind at 1. unfold emit at 1. rewrite Hf.
  cbn [negb]. unfold try_catch. rewrite bind_lift.
  destruct (template NumberToString user_prefix text) as [uc|e];
    [|reflexivity].
  cbv zeta. unfold bind at 1. unfold invoke at 1.
  destruct (create (completion_request uc)) as [response|e];
    [|reflexivity].
  cbn [cbind]. rewrite bind_lift.
  destruct (trimmed_content response) as [i|e]; reflexivity.
Qed.

(** A body that is [undefined] or [null] cannot be destructured: the
    handler's promise rejects before anything is logged or written. *)
Lemma handle_nullish_body (req : request) :
  is_nullish (body req) = true ->
  handle req = (Throw TypeError, fresh chat_request).
Proof.
  intros H. unfold ExtractIngredients.handle, extract_ingredients.
  rewrite bind_lift. destruct (body req); try discriminate; reflexivity.
Qed.

Lemma handle_string (req : request) (s : jsstring) :
  Get (body req) (Name (lit "text")) = Normal (VString s) ->
  s <> [] ->
  exists len,
    let log := ConsoleLog [VString (lit "Received text length:"); len] in
    let rq := completion_request (user_prefix ++ s) in
    handle req =
    match cbind (create rq) trimmed_content with
    | Normal ingredients =>
        (Normal tt,
         {| trace := [log; Call rq;
                      Reply 200 (ingredients_body ingredients)];
            statusCode := 200; headersSent := true |})
    | Throw e =>
        (Normal tt,
         {| trace := [log; Call rq; ConsoleError [LogError e];
                      Reply 500 failed_body];
            statusCode := 500; headersSent := true |})
    end.
Proof.
  intros Ht Hs.
  assert (Hb : ToBoolean (VString s) = true)
    by (destruct s; [congruence | reflexivity]).
  destruct (handle_truthy req Ht Hb) as [len H]. exists len. exact H.
Qed.

(** The gate on a body that can be read: when reading [text] gives
    [undefined] or the empty string, the reply is 400 with the body
    [{error: "No text provided"}], and the chat-completion service is not
    called. *)
Theorem missing_text_rejected (req : request) (text : value) :
  Get (body req) (Name (lit "text")) = Normal text ->
  text = VUndefined \/ text = VString [] ->
  outcome req = Normal tt
  /\ adapter_calls req = []
  /\ sent req =
       [(400%Z, VObject [(lit "error", VString (lit "No text provided"))])].
Proof.
  intros Ht Hv.
  assert (Hf : ToBoolean text = false) by (destruct Hv; subst; reflexivity).
  destruct (handle_falsy req Ht Hf) as [len H].
  unfold ExtractIngredients.outcome, ExtractIngredients.adapter_calls,
    ExtractIngredients.sent.
  rewrite H. repeat split.
Qed.

(** C9. The validation gate tests truthiness: every falsy [text] (the
    numbers [0] and [-0], [false], [null], as well as a missing field and
    the empty string) is answered 400 without a call to the service. *)
Theorem falsy_text_rejected :
  (forall sign, ToBoolean (VNumber (S754_zero sign)) = false)
  /\ ToBoolean (VBool false) = false
  /\ ToBoolean VNull = false
  /\ ToBoolean VUndefined = false
  /\ ToBoolean (VString []) = false
  /\ forall (req : request) (text : value),
       Get (body req) (Name (lit "text")) = Normal text ->
       ToBoolean text = false ->
       outcome req = Normal tt
       /\ adapter_calls req = []
       /\ sent req =
            [(400%Z,
              VObject [(lit "error", VString (lit "No text provided"))])].
Proof.
  repeat (split; [reflexivity|]).
  intros req text Ht Hf.
  destruct (handle_falsy req Ht Hf) as [len H].
  unfold ExtractIngredients.outcome, ExtractIngredients.adapter_calls,
    ExtractIngredients.sent.
  rewrite H. repeat split.
Qed.

(** C7. On a non-empty string [text] the service is called with exactly
    two messages, the system instruction and the user message that ends
    with the text itself, a temperature of 0 and the one model name. *)
Theorem chat_request_shape (req : request) (s : jsstring) :
  Get (body req) (Name (lit "text")) = Normal (VString s) ->
  s <> [] ->
  adapter_calls req =
    [ {| model := lit "gpt-5-mini";
         messages :=
           [ {| role := lit "system";
                content :=
                  lit "You are an assistant that extracts ingredients from text." |};
             {| role := lit "user";
                content :=
                  lit "Extract a clean list of ingredients from this text: "
                  ++ s |} ];
         temperature := S754_zero false |} ].
Proof.
  intros Ht Hs. destruct (handle_string req Ht Hs) as [len H].
  unfold ExtractIngredients.adapter_calls. rewrite H. cbv zeta.
  destruct (cbind (create (completion_request (user_prefix ++ s)))
              trimmed_content); reflexivity.
Qed.

(** C1. On a non-empty string [text] the service is called exactly once,
    with a prompt that contains the text verbatim; when the completion's
    first choice has a string as message content, the reply is 200 with
    [ingredients] set to that content trimmed, and a 200 reply never carries
    anything else. *)
Theorem extract_replies_trimmed_first_choice (req : request) (s : jsstring) :
  Get (body req) (Name (lit "text")) = Normal (VString s) ->
  s <> [] ->
  exists rq : chat_request,
    adapter_calls req = [rq]
    /\ (exists m pre, In m (messages rq) /\ content m = pre ++ s)
    /\ (forall response choices choice msg c,
          create rq = Normal response ->
          Get response (Name (lit "choices")) = Normal choices ->
          Get choices (Index 0) = Normal choice ->
          Get choice (Name (lit "message")) = Normal msg ->
          Get msg (Name (lit "content")) = Normal (VString c) ->
          outcome req = Normal tt
          /\ sent req =
               [(200%Z, VObject [(lit "ingredients", VString (trim c))])])
    /\ (forall b,
          In (200%Z, b) (sent req) ->
          exists response choices choice msg c,
            create rq = Normal response
            /\ Get response (Name (lit "choices")) = Normal choices
            /\ Get choices (Index 0) = Normal choice
            /\ Get choice (Name (lit "message")) = Normal msg
            /\ Get msg (Name (lit "content")) = Normal (VString c)
            /\ b = VObject [(lit "ingredients", VString (trim c))]).
Proof.
  intros Ht Hs. destruct (handle_string req Ht Hs) as [len H].
  cbv zeta in H. set (rq := completion_request (user_prefix ++ s)) in *.
  exists rq.
  unfold ExtractIngredients.outcome, ExtractIngredients.adapter_calls,
    ExtractIngredients.sent.
  rewrite H. clear H. split; [|split; [|split]].
  - destruct (cbind (create rq) trimmed_content); reflexivity.
  - exists {| role := lit "user"; content := user_prefix ++ s |}, user_prefix.
    split; [right; left; reflexivity | reflexivity].
  - intros response choices choice msg c Hc G1 G2 G3 G4.
    rewrite Hc. cbn [cbind].
    rewrite (@trimmed_content_intro _ _ _ _ _ G1 G2 G3 G4).
    split; reflexivity.
  - intros b Hb.
    destruct (create rq) as [response|e] eqn:Ec; cbn [cbind] in Hb.
    + destruct (trimmed_content response) as [i|e] eqn:Et.
      * destruct Hb as [Hb|[]]. injection Hb as <-.
        destruct (@trimmed_content_inv _ _ Et)
          as (choices & choice & msg & c & G1 & G2 & G3 & G4 & ->).
        exists response, choices, choice, msg, c. repeat split; assumption.
      * destruct Hb as [Hb|[]]. discriminate.
    + destruct Hb as [Hb|[]]. discriminate.
Qed.

(** C3. Whatever error the chat-completion call rejects with, it is caught:
    the handler completes normally, the error is printed on the console, and
    the one reply is 500 with the fixed body
    [{error: "Failed to extract ingredients"}], which does not depend on the
    error. *)
Theorem adapter_failure_replies_500
  (req : request) (text : value) (user_content : jsstring) (err : exn) :
  Get (body req) (Name (lit "text")) = Normal text ->
  ToBoolean text = true ->
  template NumberToString user_prefix text = Normal user_content ->
  create (completion_request user_content) = Throw err ->
  outcome req = Normal tt
  /\ sent req =
       [(500%Z,
         VObject [(lit "error",
                   VString (lit "Failed to extract ingredients"))])]
  /\ In (ConsoleError [LogError err]) (trace (snd (handle req)))
  /\ headersSent (snd (handle req)) = true.
Proof.
  intros Ht Hb Hu Hc. destruct (handle_truthy req Ht Hb) as [len H].
  cbv zeta in H. rewrite Hu, Hc in H. cbn [cbind] in H.
  unfold ExtractIngredients.outcome, ExtractIngredients.sent.
  rewrite H. repeat split. cbn [snd trace]. right; right; left; reflexivity.
Qed.

(** A completion of the wrong shape is mapped to the same 500 reply. *)
Lemma malformed_response_replies_500
  (req : request) (text : value) (user_content : jsstring)
  (response : value) (err : exn) :
  Get (body req) (Name (lit "text")) = Normal text ->
  ToBoolean text = true ->
  template NumberToString user_prefix text = Normal user_content ->
  create (completion_request user_content) = Normal response ->
  trimmed_content response = Throw err ->
  outcome req = Normal tt /\ sent req = [(500%Z, failed_body)].
Proof.
  intros Ht Hb Hu Hc He. destruct (handle_truthy req Ht Hb) as [len H].
  cbv zeta in H. rewrite Hu, Hc in H. cbn [cbind] in H. rewrite He in H.
  unfold ExtractIngredients.outcome, ExtractIngredients.sent.
  rewrite H. split; reflexivity.
Qed.

(** On a body that can be read, the request is answered exactly once: the
    handler completes normally with the response sent, and the single reply
    is the 400 of a falsy [text], the 200 of a completed extraction, or the
    500 of a failure inside the [try] block. *)
Theorem exactly_one_reply (req : request) :
  is_nullish (body req) = false ->
  outcome req = Normal tt
  /\ headersSent (snd (handle req)) = true
  /\ exists text,
       Get (body req) (Name (lit "text")) = Normal text
       /\ ((ToBoolean text = false
            /\ sent req = [(400%Z, no_text_body)]
            /\ adapter_calls req = [])
           \/ (ToBoolean text = true
               /\ exists user_content response ingredients,
                    template NumberToString user_prefix text
                    = Normal user_content
                    /\ create (completion_request user_content)
                       = Normal response
                    /\ trimmed_content response = Normal ingredients
                    /\ sent req = [(200%Z, ingredients_body ingredients)]
                    /\ adapter_calls req
                       = [completion_request user_content])
           \/ (ToBoolean text = true
               /\ sent req = [(500%Z, failed_body)]
               /\ ((exists e,
                      template NumberToString user_prefix text = Throw e
                      /\ adapter_calls req = [])
                   \/ (exists user_content e,
                         template NumberToString user_prefix text
                         = Normal user_content
                         /\ cbind (create (completion_request user_content))
                                  trimmed_content = Throw e
                         /\ adapter_calls req
                            = [completion_request user_content])))).
Proof.
  intros Hn.
  destruct (Get_not_nullish (body req) (Name (lit "text")) Hn) as [text Ht].
  unfold ExtractIngredients.outcome, ExtractIngredients.adapter_calls,
    ExtractIngredients.sent.
  destruct (ToBoolean text) eqn:Hb.
  - destruct (handle_truthy req Ht Hb) as [len H]. cbv zeta in H.
    destruct (template NumberToString user_prefix text) as [uc|e] eqn:Hu.
    + destruct (create (completion_request uc)) as [response|e] eqn:Hc;
        cbn [cbind] in H.
      * destruct (trimmed_content response) as [i|e] eqn:Hi;
          rewrite H; repeat split; exists text; (split; [exact Ht|]).
        -- right; left. split; [exact Hb|].
           exists uc, response, i. repeat split; assumption.
        -- right; right. split; [exact Hb|]. split; [reflexivity|].
           right. exists uc, e. rewrite Hc. cbn [cbind].
           repeat split; assumption.
      * rewrite H; repeat split; exists text; (split; [exact Ht|]).
        right; right. split; [exact Hb|]. split; [reflexivity|].
        right. exists uc, e. rewrite Hc. repeat split; assumption.
    + rewrite H; repeat split; exists text; (split; [exact Ht|]).
      right; right. split; [exact Hb|]. split; [reflexivity|].
      left. exists e. repeat split; assumption.
  - destruct (handle_falsy req Ht Hb) as [len H].
    rewrite H; repeat split; exists text; (split; [exact Ht|]).
    left. split; [exact Hb|]. repeat split.
Qed.

End Handler.

Import Samples.

Lemma missing_text_rejected_witness :
  Get (body empty_request) (Name (lit "text")) = Normal VUndefined
  /\ adapter_calls render_number create_flour empty_request = []
  /\ sent render_number create_flour empty_request =
       [(400%Z, VObject [(lit "error", VString (lit "No text provided"))])].
Proof.
  split; [reflexivity|].
  destruct (@missing_text_rejected render_number create_flour
              empty_request VUndefined eq_refl (or_introl eq_refl))
    as (_ & Hc & Hs).
  split; assumption.
Defined.

Lemma falsy_text_rejected_witness :
  Get (body zero_request) (Name (lit "text"))
  = Normal (VNumber (S754_zero false))
  /\ adapter_calls render_number create_flour zero_request = []
  /\ sent render_number create_flour zero_request =
       [(400%Z, VObject [(lit "error", VString (lit "No text provided"))])].
Proof.
  split; [reflexivity|].
  destruct (falsy_text_rejected render_number create_flour)
    as (_ & _ & _ & _ & _ & H).
  destruct (H zero_request (VNumber (S754_zero false)) eq_refl eq_refl)
    as (_ & Hc & Hs).
  split; assumption.
Defined.

Lemma chat_request_shape_witness :
  map (fun rq => List.length (messages rq))
      (adapter_calls render_number create_flour flour_request) = [2%nat]
  /\ map temperature
         (adapter_calls render_number create_flour flour_request)
     = [S754_zero false].
Proof.
  rewrite (@chat_request_shape render_number create_flour flour_request
             flour_text eq_refl ltac:(discriminate)).
  split; reflexivity.
Defined.

Lemma extract_replies_trimmed_first_choice_witness :
  sent render_number create_flour flour_request =
    [(200%Z,
      VObject [(lit "ingredients",
                VString (lit "Flour" ++ [10%N] ++ lit "Egg" ++ [10%N]
                         ++ lit "Salt"))])].
Proof.
  destruct (@extract_replies_trimmed_first_choice render_number create_flour
              flour_request flour_text eq_refl ltac:(discriminate))
    as (rq & _ & _ & H & _).
  exact (proj2 (H flour_response (VArray [flour_choice]) flour_choice
                  flour_message flour_content
                  eq_refl eq_refl eq_refl eq_refl eq_refl)).
Defined.

Lemma adapter_failure_replies_500_witness :
  outcome render_number create_fails flour_request = Normal tt
  /\ sent render_number create_fails flour_request =
       [(500%Z,
         VObject [(lit "error",
                   VString (lit "Failed to extract ingredients"))])].
Proof.
  destruct (@adapter_failure_replies_500 render_number create_fails
              flour_request (VString flour_text) (user_prefix ++ flour_text)
              quota_error eq_refl eq_refl eq_refl eq_refl)
    as (Ho & Hs & _).
  split; assumption.
Defined.

Lemma exactly_one_reply_witness :
  is_nullish (body flour_request) = false
  /\ outcome render_number create_flour flour_request = Normal tt
  /\ headersSent (snd (handle render_number create_flour flour_request))
     = true.
Proof.
  split; [reflexivity|].
  destruct (@exactly_one_reply render_number create_flour flour_request
              eq_refl) as (Ho & Hh & _).
  split; assumption.
Defined.

End ExtractIngredientsSpec.

(** ** The OCR script *)
Module OcrSpec.
Import JS Eff Ocr JSFacts EffFacts.

Lemma no_detections_array (l : list value) :
  no_detections (VArray l)
  = Normal match l with [] => true | _ :: _ => false end.
Proof.
  unfold no_detections. cbn [ToBoolean negb].
  change (Get (VArray l) (Name (lit "length")))
    with (Normal (A:=value) (VNumber (Number_of_nat (List.length l)))).
  cbn [cbind strict_equals_number]. f_equal.
  destruct l as [|x l]; [reflexivity|].
  destruct (SFeqb (Number_of_nat (List.length (x :: l))) zero) eqn:E;
    [|reflexivity].
  apply Number_of_nat_zero in E. discriminate.
Qed.

(** The guard of the length read is truthiness, so the test never throws. *)
Lemma no_detections_total (detections : value) :
  exists b, no_detections detections = Normal b.
Proof.
  unfold no_detections. destruct (ToBoolean detections) eqn:Hb; cbn [negb].
  - destruct (Get_not_nullish detections (Name (lit "length"))
                (ToBoolean_true_not_nullish detections Hb)) as [len ->].
    eexists; reflexivity.
  - eexists; reflexivity.
Qed.

Lemma no_detections_false (detections : value) :
  no_detections detections = Normal false -> ToBoolean detections = true.
Proof.
  unfold no_detections. destruct (ToBoolean detections); cbn [negb];
    [reflexivity | discriminate].
Qed.

Section Script.

Variable readFileSync : jsstring -> completion buffer.
Variable textDetection : buffer -> completion value.

Local Abbreviation run := (run readFileSync textDetection).

(** Every path of the script. *)
Lemma run_cases :
  run =
  match readFileSync imagePath with
  | Throw e =>
      (Normal tt, [Call (ReadFileSync imagePath); ConsoleError (error_line e)])
  | Normal buf =>
      let called := [Call (ReadFileSync imagePath); Call (TextDetection buf)] in
      match cbind (textDetection buf) (fun resolved =>
            cbind (destructure_first resolved) (fun result =>
            Get result (Name (lit "textAnnotations")))) with
      | Throw e => (Normal tt, called ++ [ConsoleError (error_line e)])
      | Normal detections =>
          match no_detections detections with
          | Throw e => (Normal tt, called ++ [ConsoleError (error_line e)])
          | Normal true => (Normal tt, called ++ [ConsoleLog no_text_line])
          | Normal false =>
              match cbind (Get detections (Index 0)) (fun first =>
                    Get first (Name (lit "description"))) with
              | Throw e => (Normal tt, called ++ [ConsoleError (error_line e)])
              | Normal description =>
                  (Normal tt, called ++ [ConsoleLog (text_line description)])
              end
          end
      end
  end.
Proof.
  unfold Ocr.run, testOCR, try_catch.
  unfold bind at 1. unfold invoke at 1.
  destruct (readFileSync imagePath) as [buf|e]; [|reflexivity].
  unfold bind at 1. unfold invoke at 1.
  destruct (textDetection buf) as [resolved|e]; [|reflexivity].
  cbn [cbind]. rewrite bind_lift.
  destruct (destructure_first resolved) as [result|e]; [|reflexivity].
  cbn [cbind]. rewrite bind_lift.
  destruct (Get result (Name (lit "textAnnotations"))) as [detections|e];
    [|reflexivity].
  rewrite bind_lift.
  destruct (no_detections detections) as [[|]|e]; try reflexivity.
  rewrite bind_lift.
  destruct (Get detections (Index 0)) as [first|e]; [|reflexivity].
  cbn [cbind]. rewrite bind_lift.
  destruct (Get first (Name (lit "description"))); reflexivity.
Qed.

(** C5. When the detection call resolves, the script prints the first
    annotation's description if the annotation list is not empty, and the
    line ["No text detected!"] if it is empty; both are normal outcomes,
    with nothing printed as an error. *)
Theorem ocr_prints_first_description_or_sentinel
  (buf : buffer) (resolved result : value) :
  readFileSync imagePath = Normal buf ->
  textDetection buf = Normal resolved ->
  destructure_first resolved = Normal result ->
  (forall first rest description,
      Get result (Name (lit "textAnnotations"))
      = Normal (VArray (first :: rest)) ->
      Get first (Name (lit "description")) = Normal description ->
      run =
      (Normal tt,
       [Call (ReadFileSync imagePath); Call (TextDetection buf);
        ConsoleLog [VString (lit "Text detected:" ++ [10%N]); description]]))
  /\ (Get result (Name (lit "textAnnotations")) = Normal (VArray []) ->
      run =
      (Normal tt,
       [Call (ReadFileSync imagePath); Call (TextDetection buf);
        ConsoleLog [VString (lit "No text detected!")]])).
Proof.
  intros Hr Hd Hf. rewrite run_cases, Hr. cbv zeta. rewrite Hd.
  cbn [cbind]. rewrite Hf. cbn [cbind]. split.
  - intros first rest description Ha Hdesc. rewrite Ha.
    rewrite no_detections_array.
    change (Get (VArray (first :: rest)) (Index 0)) with (Normal first).
    cbn [cbind]. rewrite Hdesc. reflexivity.
  - intros Ha. rewrite Ha, no_detections_array. reflexivity.
Qed.

(** C10. A response without a [textAnnotations] field takes the same branch
    as one with an empty list, the ["No text detected!"] line. The test
    itself never throws, and wherever it is false [detections] is neither
    [undefined] nor [null], so reading [detections[0]] cannot throw. *)
Theorem missing_annotations_like_empty :
  (forall (buf : buffer) (resolved result detections : value),
      readFileSync imagePath = Normal buf ->
      textDetection buf = Normal resolved ->
      destructure_first resolved = Normal result ->
      Get result (Name (lit "textAnnotations")) = Normal detections ->
      detections = VUndefined \/ detections = VArray [] ->
      run =
      (Normal tt,
       [Call (ReadFileSync imagePath); Call (TextDetection buf);
        ConsoleLog [VString (lit "No text detected!")]]))
  /\ no_detections VUndefined = no_detections (VArray [])
  /\ (forall detections, exists b, no_detections detections = Normal b)
  /\ (forall detections,
        no_detections detections = Normal false ->
        is_nullish detections = false
        /\ exists first, Get detections (Index 0) = Normal first).
Proof.
  split; [|split; [|split]].
  - intros buf resolved result detections Hr Hd Hf Ha Hv.
    rewrite run_cases, Hr. cbv zeta. rewrite Hd. cbn [cbind].
    rewrite Hf. cbn [cbind]. rewrite Ha.
    destruct Hv as [-> | ->]; reflexivity.
  - reflexivity.
  - exact no_detections_total.
  - intros detections H.
    pose proof (ToBoolean_true_not_nullish detections
                  (no_detections_false detections H)) as Hn.
    split; [exact Hn|]. apply Get_not_nullish, Hn.
Qed.

(** Within [testOCR], a failure of the file read or of the awaited
    detection call is caught and printed with [console.error], and that is
    all: the function completes normally and, on every path, writes no
    reply. *)
Theorem ocr_failure_only_logged :
  (forall e,
      readFileSync imagePath = Throw e ->
      run =
      (Normal tt,
       [Call (ReadFileSync imagePath);
        ConsoleError [LogValue (VString (lit "Error with Google Vision API:"));
                      LogError e]]))
  /\ (forall buf e,
        readFileSync imagePath = Normal buf ->
        textDetection buf = Throw e ->
        run =
        (Normal tt,
         [Call (ReadFileSync imagePath); Call (TextDetection buf);
          ConsoleError
            [LogValue (VString (lit "Error with Google Vision API:"));
             LogError e]]))
  /\ fst run = Normal tt
  /\ replies (snd run) = [].
Proof.
  split; [|split].
  - intros e Hr. rewrite run_cases, Hr. reflexivity.
  - intros buf e Hr Hd. rewrite run_cases, Hr. cbv zeta. rewrite Hd.
    reflexivity.
  - rewrite run_cases.
    destruct (readFileSync imagePath) as [buf|e]; [|split; reflexivity].
    cbv zeta.
    destruct (cbind (textDetection buf) _) as [detections|e];
      [|split; reflexivity].
    destruct (no_detections detections) as [[|]|e]; try (split; reflexivity).
    destruct (cbind (Get detections (Index 0)) _); split; reflexivity.
Qed.

End Script.

Import Samples.

Lemma ocr_prints_first_description_or_sentinel_witness :
  run read_image (detect one_annotation) =
    (Normal tt,
     [Call (ReadFileSync imagePath); Call (TextDetection image_bytes);
      ConsoleLog [VString (lit "Text detected:" ++ [10%N]);
                  VString (lit "SUGAR, SALT")]])
  /\ run read_image (detect no_annotation) =
       (Normal tt,
        [Call (ReadFileSync imagePath); Call (TextDetection image_bytes);
         ConsoleLog [VString (lit "No text detected!")]]).
Proof.
  split.
  - exact (proj1 (@ocr_prints_first_description_or_sentinel
                    read_image (detect one_annotation) image_bytes
                    one_annotation _ eq_refl eq_refl eq_refl)
                 _ _ _ eq_refl eq_refl).
  - exact (proj2 (@ocr_prints_first_description_or_sentinel
                    read_image (detect no_annotation) image_bytes
                    no_annotation _ eq_refl eq_refl eq_refl)
                 eq_refl).
Defined.

Lemma missing_annotations_like_empty_witness :
  run read_image (detect no_annotation_field) =
    (Normal tt,
     [Call (ReadFileSync imagePath); Call (TextDetection image_bytes);
      ConsoleLog [VString (lit "No text detected!")]])
  /\ (no_detections (VString (lit "x")) = Normal false
      /\ exists first, Get (VString (lit "x")) (Index 0) = Normal first).
Proof.
  destruct (missing_annotations_like_empty
              read_image (detect no_annotation_field))
    as (Hrun & _ & _ & Hidx).
  split.
  - exact (Hrun image_bytes no_annotation_field (VObject []) VUndefined
             eq_refl eq_refl eq_refl eq_refl (or_introl eq_refl)).
  - split; [reflexivity|].
    exact (proj2 (Hidx (VString (lit "x")) eq_refl)).
Defined.

Lemma ocr_failure_only_logged_witness :
  run read_fails (detect no_annotation) =
    (Normal tt,
     [Call (ReadFileSync imagePath);
      ConsoleError
        [LogValue (VString (lit "Error with Google Vision API:"));
         LogError (External (VObject [(lit "code", VString (lit "ENOENT"))]))]])
  /\ run read_image detect_fails =
       (Normal tt,
        [Call (ReadFileSync imagePath); Call (TextDetection image_bytes);
         ConsoleError
           [LogValue (VString (lit "Error with Google Vision API:"));
            LogError quota_error]]).
Proof.
  split.
  - exact (proj1 (ocr_failure_only_logged read_fails (detect no_annotation))
                 _ eq_refl).
  - exact (proj1 (proj2 (ocr_failure_only_logged read_image detect_fails))
                 _ _ eq_refl eq_refl).
Defined.

End OcrSpec.

(** ** [server.js]: the route [GET /test-cors] *)
Module ServerSpec.
Import JS Eff Express Server.

(** C8, as the code has it. Every request to the route is answered 200 with
    the body [{message: m}], where [m] is the check mark U+2705, a space and
    ["CORS is working properly"]. *)
Theorem test_cors_reply (req : request) :
  serve req =
  (Normal tt,
   {| trace :=
        [Reply 200
           (VObject [(lit "message",
                      VString (9989%N :: lit " CORS is working properly"))])];
      statusCode := 200;
      headersSent := true |})
  /\ served req =
     [(200%Z,
       VObject [(lit "message",
                 VString ([9989%N; 32%N] ++ lit "CORS is working properly"))])].
Proof.
  assert (H : serve req =
              (Normal tt,
               {| trace :=
                    [Reply 200 (VObject [(lit "message", VString cors_message)])];
                  statusCode := 200;
                  headersSent := true |})).
  { unfold serve, test_cors, res_json, fresh. cbn [headersSent]. reflexivity. }
  split.
  - rewrite H. reflexivity.
  - unfold served. rewrite H. reflexivity.
Qed.

(** C8, as stated, fails on a request with an empty body: the message sent
    is not the bare sentence. *)
Lemma test_cors_message_is_not_bare :
  served {| body := VObject [] |} <>
  [(200%Z,
    VObject [(lit "message", VString (lit "CORS is working properly"))])].
Proof. vm_compute. discriminate. Qed.

End ServerSpec.

(** ** The request without a body *)
Module BodylessRequest.
Import JS Eff Express ExtractIngredients Samples MoreSamples.

(** C2, on the request where the code departs from it. A request without a
    parsed body has no [text] field, yet it is not answered 400: reading
    [text] throws before the gate is reached, the handler's promise rejects
    and nothing is written. The service is not called. The request [{}],
    which differs only in having a body, is answered 400. *)
Theorem body_less_request_gets_no_400
  (NumberToString : number -> jsstring)
  (create : chat_request -> completion value) :
  Get (body no_body_request) (Name (lit "text")) = Throw TypeError
  /\ outcome NumberToString create no_body_request = Throw TypeError
  /\ sent NumberToString create no_body_request = []
  /\ adapter_calls NumberToString create no_body_request = []
  /\ sent NumberToString create empty_request =
       [(400%Z, VObject [(lit "error", VString (lit "No text provided"))])].
Proof.
  assert (H : handle NumberToString create no_body_request
              = (Throw TypeError, fresh chat_request)).
  { apply ExtractIngredientsSpec.handle_nullish_body. reflexivity. }
  unfold outcome, sent, adapter_calls. rewrite H.
  repeat split; reflexivity.
Qed.

(** C4, on the request where the code departs from it. For a request
    without a parsed body the handler takes none of the three paths: the
    destructuring of [req.body] throws outside the [try] block, so the
    promise rejects with the response untouched and no reply sent. *)
Theorem body_less_request_gets_no_reply
  (NumberToString : number -> jsstring)
  (create : chat_request -> completion value) :
  outcome NumberToString create no_body_request = Throw TypeError
  /\ trace (snd (handle NumberToString create no_body_request)) = []
  /\ List.length (sent NumberToString create no_body_request) = 0%nat
  /\ headersSent (snd (handle NumberToString create no_body_request)) = false
  /\ statusCode (snd (handle NumberToString create no_body_request)) = 200%Z.
Proof.
  assert (H : handle NumberToString create no_body_request
              = (Throw TypeError, fresh chat_request)).
  { apply ExtractIngredientsSpec.handle_nullish_body. reflexivity. }
  unfold outcome, sent. rewrite H.
  repeat split; reflexivity.
Qed.

End BodylessRequest.

(** ** The OCR script as a process *)
Module OcrProcessSpec.
Import JS Eff Ocr OcrProcess Samples MoreSamples.

Section Process.

Variable readFileSync : jsstring -> completion buffer.
Variable client : buffer -> detection.

Local Abbreviation script := (script readFileSync client).
Local Abbreviation exit_code := (exit_code readFileSync client).

(** The rejections left unhandled are the client's own. *)
Lemma unhandled_cases :
  unhandled readFileSync client =
  match readFileSync imagePath with
  | Throw _ => []
  | Normal buf => stray (client buf)
  end.
Proof.
  unfold unhandled, OcrProcess.script.
  rewrite (OcrSpec.run_cases readFileSync (fun buf => settled (client buf))).
  destruct (readFileSync imagePath) as [buf|e]; [|reflexivity].
  cbv zeta.
  destruct (cbind (settled (client buf)) _) as [detections|e];
    [|cbn; apply app_nil_r].
  destruct (no_detections detections) as [[|]|e];
    try (cbn; apply app_nil_r).
  destruct (cbind (Get detections (Index 0)) _); cbn; apply app_nil_r.
Qed.

(** C6, as the code has it. A failure of the file read, or of the promise
    the detection call returns, is caught and printed with [console.error]
    and nothing else: no reply is written and [testOCR]'s own promise is
    fulfilled on every path. The process then ends with exit code 0 unless
    the client rejected a promise of its own, which the script has no
    handler for: then it ends with exit code 1. *)
Theorem ocr_failure_logged_not_rethrown :
  (forall e,
      readFileSync imagePath = Throw e ->
      script =
      (Normal tt,
       [Call (ReadFileSync imagePath);
        ConsoleError [LogValue (VString (lit "Error with Google Vision API:"));
                      LogError e]])
      /\ exit_code = 0%Z)
  /\ (forall buf e,
        readFileSync imagePath = Normal buf ->
        settled (client buf) = Throw e ->
        script =
        (Normal tt,
         [Call (ReadFileSync imagePath); Call (TextDetection buf);
          ConsoleError
            [LogValue (VString (lit "Error with Google Vision API:"));
             LogError e]])
        /\ (exit_code = 0%Z <-> stray (client buf) = []))
  /\ fst script = Normal tt
  /\ replies (snd script) = []
  /\ (exit_code = 1%Z <->
      exists buf,
        readFileSync imagePath = Normal buf /\ stray (client buf) <> []).
Proof.
  pose proof (OcrSpec.ocr_failure_only_logged
                readFileSync (fun buf => settled (client buf)))
    as (Hread & Hdetect & Hfst & Hreplies).
  pose proof unhandled_cases as Hu.
  unfold OcrProcess.exit_code, OcrProcess.script.
  split; [|split; [|split; [|split]]].
  - intros e Hr. split; [exact (Hread e Hr)|].
    rewrite Hu, Hr. reflexivity.
  - intros buf e Hr Hs. split; [exact (Hdetect buf e Hr Hs)|].
    rewrite Hu, Hr. destruct (stray (client buf)); split; congruence.
  - exact Hfst.
  - exact Hreplies.
  - rewrite Hu. destruct (readFileSync imagePath) as [buf|e].
    + destruct (stray (client buf)) as [|x l] eqn:Es; split.
      * discriminate.
      * intros (b & Hb & Hne). injection Hb as <-. congruence.
      * intros _. exists buf. split; [reflexivity|]. rewrite Es. discriminate.
      * reflexivity.
    + split; [discriminate|]. intros (b & Hb & _). discriminate.
Qed.

End Process.

Lemma ocr_failure_logged_not_rethrown_witness :
  OcrProcess.script read_fails client_over_quota =
    (Normal tt,
     [Call (ReadFileSync imagePath);
      ConsoleError
        [LogValue (VString (lit "Error with Google Vision API:"));
         LogError (External (VObject [(lit "code", VString (lit "ENOENT"))]))]])
  /\ OcrProcess.script read_image client_over_quota =
       (Normal tt,
        [Call (ReadFileSync imagePath); Call (TextDetection image_bytes);
         ConsoleError
           [LogValue (VString (lit "Error with Google Vision API:"));
            LogError quota_error]])
  /\ OcrProcess.exit_code read_image client_over_quota = 0%Z.
Proof.
  destruct (ocr_failure_logged_not_rethrown read_fails client_over_quota)
    as (Hread & _).
  destruct (ocr_failure_logged_not_rethrown read_image client_over_quota)
    as (_ & Hdetect & _).
  split; [exact (proj1 (Hread _ eq_refl))|].
  destruct (Hdetect image_bytes quota_error eq_refl eq_refl) as (Hs & Hx).
  split; [exact Hs|]. exact (proj2 Hx eq_refl).
Defined.

(** C6, as stated, fails for a client without credentials: the rejection of
    the awaited promise is caught and printed, [testOCR] completes normally,
    and the process still ends with exit code 1. *)
Lemma caught_failure_still_ends_the_process :
  settled (client_without_credentials image_bytes) = Throw credentials_error
  /\ OcrProcess.script read_image client_without_credentials =
       (Normal tt,
        [Call (ReadFileSync imagePath); Call (TextDetection image_bytes);
         ConsoleError
           [LogValue (VString (lit "Error with Google Vision API:"));
            LogError credentials_error]])
  /\ OcrProcess.exit_code read_image client_without_credentials = 1%Z.
Proof. repeat split; vm_compute; reflexivity. Qed.

End OcrProcessSpec.

(* ===================================================================== *)
(** * Further properties of the code *)
(* ===================================================================== *)

(** ** More on trimming and on traces *)
Module MoreFacts.
Import JS Eff Observe JSFacts.

Lemma trim_start_fixed (s : jsstring) :
  (forall c rest, s = c :: rest -> is_white_space c = false) ->
  trim_start s = s.
Proof.
  destruct s as [|c rest]; [reflexivity|]. intros H. simpl.
  rewrite (H c rest eq_refl). reflexivity.
Qed.

Lemma trim_end_fixed (s : jsstring) :
  (forall c front, s = front ++ [c] -> is_white_space c = false) ->
  trim_end s = s.
Proof.
  intros H. unfold trim_end. rewrite trim_start_fixed.
  - apply rev_involutive.
  - intros c rest E. apply (H c (rev rest)).
    rewrite <- (rev_involutive s), E. reflexivity.
Qed.

(** Trimming twice is trimming once. *)
Lemma trim_idempotent (s : jsstring) : trim (trim s) = trim s.
Proof.
  destruct (trim_ends s) as [Hhead Hlast].
  unfold trim at 1. rewrite trim_start_fixed by exact Hhead.
  apply trim_end_fixed. exact Hlast.
Qed.

Lemma trim_start_blank (s : jsstring) :
  forallb is_white_space s = true -> trim_start s = [].
Proof.
  induction s as [|c s IH]; [reflexivity|]. simpl.
  destruct (is_white_space c); [exact IH | discriminate].
Qed.

(** A string of whitespace trims to the empty string. *)
Lemma trim_blank (s : jsstring) :
  forallb is_white_space s = true -> trim s = [].
Proof.
  intros H. unfold trim. rewrite (trim_start_blank s H). reflexivity.
Qed.

End MoreFacts.

(** ** More on the route [POST /extract-ingredients] *)
Module ExtractIngredientsMore.
Import JS Eff Express ExtractIngredients JSFacts EffFacts MoreFacts.

Section Handler.

Variable NumberToString : number -> jsstring.
Variable create : chat_request -> completion value.

Local Abbreviation handle := (handle NumberToString create).
Local Abbreviation outcome := (outcome NumberToString create).
Local Abbreviation sent := (sent NumberToString create).
Local Abbreviation adapter_calls := (adapter_calls NumberToString create).

(** Every run on a body that can be read, with the logged length named. *)
Lemma handle_readable (req : request) (text len : value) :
  Get (body req) (Name (lit "text")) = Normal text ->
  optional_get text (lit "length") = Normal len ->
  let log := ConsoleLog [VString (lit "Received text length:"); len] in
  handle req =
  if ToBoolean text then
    match template NumberToString user_prefix text with
    | Throw e =>
        (Normal tt,
         {| trace := [log; ConsoleError [LogError e]; Reply 500 failed_body];
            statusCode := 500; headersSent := true |})
    | Normal user_content =>
        let rq := completion_request user_content in
        match cbind (create rq) trimmed_content with
        | Normal ingredients =>
            (Normal tt,
             {| trace := [log; Call rq;
                          Reply 200 (ingredients_body ingredients)];
                statusCode := 200; headersSent := true |})
        | Throw e =>
            (Normal tt,
             {| trace := [log; Call rq; ConsoleError [LogError e];
                          Reply 500 failed_body];
                statusCode := 500; headersSent := true |})
        end
    end
  else
    (Normal tt,
     {| trace := [log; Reply 400 no_text_body];
        statusCode := 400; headersSent := true |}).
Proof.
  intros Ht Hl. cbv zeta.
  unfold ExtractIngredients.handle, extract_ingredients.
  rewrite bind_lift, Ht, bind_lift, Hl.
  unfold bind at 1. unfold emit at 1.
  destruct (ToBoolean text); cbn [negb]; [|reflexivity].
  unfold try_catch. rewrite bind_lift.
  destruct (template NumberToString user_prefix text) as [uc|e];
    [|reflexivity].
  unfold bind at 1. unfold invoke at 1.
  destruct (create (completion_request uc)) as [response|e];
    [|reflexivity].
  cbn [cbind]. rewrite bind_lift.
  destruct (trimmed_content response) as [i|e]; reflexivity.
Qed.

(** X1. A body that is [undefined] or [null] makes the destructuring on
    the handler's first line throw outside the [try] block: the promise
    rejects with a [TypeError] and nothing is logged, called or replied. *)
Theorem unreadable_body_rejects (req : request) :
  is_nullish (body req) = true ->
  outcome req = Throw TypeError
  /\ trace (snd (handle req)) = []
  /\ sent req = []
  /\ adapter_calls req = []
  /\ headersSent (snd (handle req)) = false.
Proof.
  intros H.
  unfold ExtractIngredients.outcome, ExtractIngredients.sent,
    ExtractIngredients.adapter_calls.
  rewrite (ExtractIngredientsSpec.handle_nullish_body
             NumberToString create req H).
  repeat split.
Qed.

(** X2. Whatever the request and whatever the service does, the handler
    calls the service at most once and replies at most once; it replies
    nothing exactly when the body cannot be read, and it calls the service
    only for a truthy [text]. *)
Theorem at_most_one_call_and_reply (req : request) :
  (List.length (adapter_calls req) <= 1)%nat
  /\ (List.length (sent req) <= 1)%nat
  /\ (sent req = [] <-> is_nullish (body req) = true)
  /\ (adapter_calls req <> [] ->
      exists text,
        Get (body req) (Name (lit "text")) = Normal text
        /\ ToBoolean text = true).
Proof.
  destruct (is_nullish (body req)) eqn:Hn.
  - unfold ExtractIngredients.sent, ExtractIngredients.adapter_calls.
    rewrite (ExtractIngredientsSpec.handle_nullish_body
               NumberToString create req Hn).
    cbn [snd fresh trace replies calls List.length].
    repeat split; try lia; try reflexivity. congruence.
  - destruct (Get_not_nullish (body req) (Name (lit "text")) Hn)
      as [text Ht].
    destruct (optional_get_total text (lit "length")) as [len Hl].
    pose proof (handle_readable req Ht Hl) as H. cbv zeta in H.
    unfold ExtractIngredients.sent, ExtractIngredients.adapter_calls.
    rewrite H. clear H.
    destruct (ToBoolean text) eqn:Hb.
    + assert (Hx : exists t,
                 Get (body req) (Name (lit "text")) = Normal t
                 /\ ToBoolean t = true) by (exists text; auto).
      destruct (template NumberToString user_prefix text) as [uc|e].
      * destruct (cbind (create (completion_request uc)) trimmed_content);
          cbn [snd trace replies calls List.length];
          repeat split; try lia; try discriminate; intros; exact Hx.
      * cbn [snd trace replies calls List.length];
          repeat split; try lia; try discriminate; intros; exact Hx.
    + cbn [snd trace replies calls List.length].
      repeat split; try lia; try discriminate. congruence.
Qed.

(** X3. The reply is the last thing the handler does: every call to the
    service and every console line comes before it, and nothing follows. *)
Theorem reply_ends_the_trace (req : request) (st : Z) (b : value) :
  In (st, b) (sent req) ->
  exists before,
    trace (snd (handle req)) = before ++ [Reply st b]
    /\ replies before = []
    /\ calls before = adapter_calls req.
Proof.
  destruct (is_nullish (body req)) eqn:Hn.
  - unfold ExtractIngredients.sent.
    rewrite (ExtractIngredientsSpec.handle_nullish_body
               NumberToString create req Hn).
    intros [].
  - destruct (Get_not_nullish (body req) (Name (lit "text")) Hn)
      as [text Ht].
    destruct (optional_get_total text (lit "length")) as [len Hl].
    pose proof (handle_readable req Ht Hl) as H. cbv zeta in H.
    unfold ExtractIngredients.sent, ExtractIngredients.adapter_calls.
    rewrite H. clear H.
    destruct (ToBoolean text).
    + destruct (template NumberToString user_prefix text) as [uc|e].
      * destruct (cbind (create (completion_request uc)) trimmed_content);
          cbn [snd trace replies calls]; intros [E|[]];
          injection E as <- <-.
        -- exists [ConsoleLog [VString (lit "Received text length:"); len];
                   Call (completion_request uc)].
           repeat split.
        -- exists [ConsoleLog [VString (lit "Received text length:"); len];
                   Call (completion_request uc);
                   ConsoleError [LogError e]].
           repeat split.
      * cbn [snd trace replies calls]; intros [E|[]]; injection E as <- <-.
        exists [ConsoleLog [VString (lit "Received text length:"); len];
                ConsoleError [LogError e]].
        repeat split.
    + cbn [snd trace replies calls]; intros [E|[]]; injection E as <- <-.
      exists [ConsoleLog [VString (lit "Received text length:"); len]].
      repeat split.
Qed.

(** X4. A completion without choices, or whose first choice has a message
    content that is not a string (such as [null]), makes the read
    [response.choices[0].message.content.trim()] throw a [TypeError] inside
    the [try] block: after the one call the error is logged and the reply is
    the generic 500. *)
Theorem malformed_completion_replies_500
  (req : request) (s : jsstring) (response : value) :
  Get (body req) (Name (lit "text")) = Normal (VString s) ->
  s <> [] ->
  create (completion_request (user_prefix ++ s)) = Normal response ->
  (Get response (Name (lit "choices")) = Normal (VArray [])
   \/ exists choices choice msg c,
        Get response (Name (lit "choices")) = Normal choices
        /\ Get choices (Index 0) = Normal choice
        /\ Get choice (Name (lit "message")) = Normal msg
        /\ Get msg (Name (lit "content")) = Normal c
        /\ (forall x, c <> VString x)) ->
  outcome req = Normal tt
  /\ adapter_calls req = [completion_request (user_prefix ++ s)]
  /\ sent req =
       [(500%Z,
         VObject [(lit "error",
                   VString (lit "Failed to extract ingredients"))])]
  /\ In (ConsoleError [LogError TypeError]) (trace (snd (handle req))).
Proof.
  intros Ht Hs Hc Hshape.
  assert (Hthrow : trimmed_content response = Throw TypeError).
  { unfold trimmed_content.
    destruct Hshape as [H0 | (choices & choice & msg & c & H1 & H2 & H3 & H4 & Hn)].
    - rewrite H0. reflexivity.
    - rewrite H1; cbn [cbind]. rewrite H2; cbn [cbind].
      rewrite H3; cbn [cbind]. rewrite H4; cbn [cbind].
      destruct c; try reflexivity. exfalso. exact (Hn _ eq_refl). }
  assert (Hb : ToBoolean (VString s) = true)
    by (destruct s; [congruence | reflexivity]).
  assert (Hl : optional_get (VString s) (lit "length")
               = Normal (VNumber (Number_of_nat (List.length s))))
    by reflexivity.
  pose proof (handle_readable req Ht Hl) as H. cbv zeta in H.
  rewrite Hb in H.
  change (template NumberToString user_prefix (VString s))
    with (Normal (A:=jsstring) (user_prefix ++ s)) in H.
  cbv iota beta in H. rewrite Hc in H. cbn [cbind] in H. rewrite Hthrow in H.
  unfold ExtractIngredients.outcome, ExtractIngredients.sent,
    ExtractIngredients.adapter_calls.
  rewrite H. repeat split. cbn [snd trace]. right; right; left; reflexivity.
Qed.

(** X5. The [ingredients] of a 200 reply, for any request, is a string that
    neither starts nor ends with whitespace: trimming it again changes
    nothing. *)
Theorem ingredients_have_no_outer_whitespace (req : request) (b : value) :
  In (200%Z, b) (sent req) ->
  exists i,
    b = VObject [(lit "ingredients", VString i)]
    /\ trim i = i
    /\ (forall c rest, i = c :: rest -> is_white_space c = false)
    /\ (forall c front, i = front ++ [c] -> is_white_space c = false).
Proof.
  destruct (is_nullish (body req)) eqn:Hn.
  - unfold ExtractIngredients.sent.
    rewrite (ExtractIngredientsSpec.handle_nullish_body
               NumberToString create req Hn).
    intros [].
  - destruct (Get_not_nullish (body req) (Name (lit "text")) Hn)
      as [text Ht].
    destruct (optional_get_total text (lit "length")) as [len Hl].
    pose proof (handle_readable req Ht Hl) as H. cbv zeta in H.
    unfold ExtractIngredients.sent. rewrite H. clear H.
    destruct (ToBoolean text).
    + destruct (template NumberToString user_prefix text) as [uc|e].
      * destruct (create (completion_request uc)) as [response|e];
          cbn [cbind].
        -- destruct (trimmed_content response) as [i|e] eqn:Hi;
             cbn [snd trace replies]; intros [E|[]]; [|discriminate E].
           injection E as <-.
           destruct (@ExtractIngredientsSpec.trimmed_content_inv _ _ Hi)
             as (choices & choice & msg & c & _ & _ & _ & _ & ->).
           exists (trim c). split; [reflexivity|].
           split; [apply trim_idempotent|]. exact (trim_ends c).
        -- cbn [snd trace replies]; intros [E|[]]; discriminate E.
      * cbn [snd trace replies]; intros [E|[]]; discriminate E.
    + cbn [snd trace replies]; intros [E|[]]; discriminate E.
Qed.

(** X6. A completion whose content is only whitespace is not an error: the
    reply is 200 with the empty string as [ingredients]. *)
Theorem blank_completion_gives_empty_ingredients
  (req : request) (s : jsstring) (response choices choice msg : value)
  (c : jsstring) :
  Get (body req) (Name (lit "text")) = Normal (VString s) ->
  s <> [] ->
  create (completion_request (user_prefix ++ s)) = Normal response ->
  Get response (Name (lit "choices")) = Normal choices ->
  Get choices (Index 0) = Normal choice ->
  Get choice (Name (lit "message")) = Normal msg ->
  Get msg (Name (lit "content")) = Normal (VString c) ->
  forallb is_white_space c = true ->
  outcome req = Normal tt
  /\ sent req = [(200%Z, VObject [(lit "ingredients", VString [])])].
Proof.
  intros Ht Hs Hc G1 G2 G3 G4 Hw.
  pose proof (@ExtractIngredientsSpec.trimmed_content_intro
                _ _ _ _ _ G1 G2 G3 G4) as Hi.
  rewrite (trim_blank c Hw) in Hi.
  assert (Hb : ToBoolean (VString s) = true)
    by (destruct s; [congruence | reflexivity]).
  assert (Hl : optional_get (VString s) (lit "length")
               = Normal (VNumber (Number_of_nat (List.length s))))
    by reflexivity.
  pose proof (handle_readable req Ht Hl) as H. cbv zeta in H.
  rewrite Hb in H.
  change (template NumberToString user_prefix (VString s))
    with (Normal (A:=jsstring) (user_prefix ++ s)) in H.
  cbv iota beta in H. rewrite Hc in H. cbn [cbind] in H. rewrite Hi in H.
  unfold ExtractIngredients.outcome, ExtractIngredients.sent.
  rewrite H. split; reflexivity.
Qed.

(** X7. A [text] object with an own [toString] property cannot be rendered
    into the prompt: the template literal throws inside the [try] block, so
    the service is never called and the reply is the generic 500. *)
Theorem text_shadowing_toString_fails_before_call
  (req : request) (props : list (jsstring * value)) :
  Get (body req) (Name (lit "text")) = Normal (VObject props) ->
  has_own props (lit "toString") = true ->
  outcome req = Normal tt
  /\ adapter_calls req = []
  /\ sent req =
       [(500%Z,
         VObject [(lit "error",
                   VString (lit "Failed to extract ingredients"))])]
  /\ In (ConsoleError [LogError TypeError]) (trace (snd (handle req))).
Proof.
  intros Ht Ho.
  destruct (optional_get_total (VObject props) (lit "length")) as [len Hl].
  pose proof (handle_readable req Ht Hl) as H. cbv zeta in H.
  cbn [ToBoolean] in H. unfold template in H. cbn [ToString] in H.
  rewrite Ho in H. cbn [cbind] in H.
  unfold ExtractIngredients.outcome, ExtractIngredients.sent,
    ExtractIngredients.adapter_calls.
  rewrite H. repeat split. cbn [snd trace]. right; left; reflexivity.
Qed.

(** X8. The gate tests truthiness, not the type: a [text] that is truthy
    without being a string is never answered 400 but rendered into the
    prompt. A plain object is sent as ["[object Object]"], [true] as
    ["true"], and an empty array as nothing after the prefix. *)
Theorem non_string_text_is_rendered (req : request) :
  (forall text user_content,
      Get (body req) (Name (lit "text")) = Normal text ->
      ToBoolean text = true ->
      template NumberToString user_prefix text = Normal user_content ->
      adapter_calls req = [completion_request user_content]
      /\ forall b, ~ In (400%Z, b) (sent req))
  /\ (forall props,
        Get (body req) (Name (lit "text")) = Normal (VObject props) ->
        has_own props (lit "toString") = false ->
        adapter_calls req =
          [completion_request
             (lit "Extract a clean list of ingredients from this text: "
              ++ lit "[object Object]")])
  /\ (Get (body req) (Name (lit "text")) = Normal (VBool true) ->
      adapter_calls req =
        [completion_request
           (lit "Extract a clean list of ingredients from this text: "
            ++ lit "true")])
  /\ (Get (body req) (Name (lit "text")) = Normal (VArray []) ->
      adapter_calls req =
        [completion_request
           (lit "Extract a clean list of ingredients from this text: ")]).
Proof.
  assert (G : forall text user_content,
             Get (body req) (Name (lit "text")) = Normal text ->
             ToBoolean text = true ->
             template NumberToString user_prefix text = Normal user_content ->
             adapter_calls req = [completion_request user_content]
             /\ forall b, ~ In (400%Z, b) (sent req)).
  { intros text uc Ht Hb Hu.
    destruct (optional_get_total text (lit "length")) as [len Hl].
    pose proof (handle_readable req Ht Hl) as H. cbv zeta in H.
    rewrite Hb, Hu in H.
    unfold ExtractIngredients.sent, ExtractIngredients.adapter_calls.
    rewrite H.
    destruct (cbind (create (completion_request uc)) trimmed_content);
      cbn [snd trace replies calls]; (split; [reflexivity|]);
      intros b [E|[]]; discriminate E. }
  split; [exact G|]. split; [|split].
  - intros props Ht Ho. apply (G (VObject props)); [exact Ht|reflexivity|].
    unfold template. cbn [ToString]. rewrite Ho. reflexivity.
  - intros Ht. apply (G (VBool true)); [exact Ht|reflexivity|reflexivity].
  - intros Ht. apply (G (VArray [])); [exact Ht|reflexivity|].
    unfold template. cbn [ToString cbind]. rewrite app_nil_r. reflexivity.
Qed.

(** X9. The length is logged first, before the gate, for every body that
    can be read: the number of code units of a string [text], and
    [undefined] when [text] is missing, [null], a number or a boolean. *)
Theorem length_logged_before_validation (req : request) (text : value) :
  Get (body req) (Name (lit "text")) = Normal text ->
  exists len,
    hd_error (trace (snd (handle req)))
    = Some (ConsoleLog [VString (lit "Received text length:"); len])
    /\ (forall s, text = VString s ->
                  len = VNumber (Number_of_nat (List.length s)))
    /\ (forall l, text = VArray l ->
                  len = VNumber (Number_of_nat (List.length l)))
    /\ (is_nullish text = true -> len = VUndefined)
    /\ (forall x, text = VNumber x -> len = VUndefined)
    /\ (forall x, text = VBool x -> len = VUndefined).
Proof.
  intros Ht.
  destruct (optional_get_total text (lit "length")) as [len Hl].
  exists len. split.
  - pose proof (handle_readable req Ht Hl) as H. cbv zeta in H. rewrite H.
    destruct (ToBoolean text); [|reflexivity].
    destruct (template NumberToString user_prefix text) as [uc|e];
      [|reflexivity].
    destruct (cbind (create (completion_request uc)) trimmed_content);
      reflexivity.
  - repeat split.
    + intros s ->. unfold optional_get in Hl. cbn in Hl. congruence.
    + intros l ->. unfold optional_get in Hl. cbn in Hl. congruence.
    + intros Hn. unfold optional_get in Hl. rewrite Hn in Hl. congruence.
    + intros x ->. unfold optional_get in Hl. cbn in Hl. congruence.
    + intros x ->. unfold optional_get in Hl. cbn in Hl. congruence.
Qed.

End Handler.

Import Samples MoreSamples.

Lemma unreadable_body_rejects_witness :
  is_nullish (body no_body_request) = true
  /\ outcome render_number create_flour no_body_request = Throw TypeError
  /\ sent render_number create_flour no_body_request = [].
Proof.
  split; [reflexivity|].
  destruct (@unreadable_body_rejects render_number create_flour
              no_body_request eq_refl) as (Ho & _ & Hs & _).
  split; assumption.
Defined.

Lemma at_most_one_call_and_reply_witness :
  adapter_calls render_number create_flour flour_request <> []
  /\ exists text,
       Get (body flour_request) (Name (lit "text")) = Normal text
       /\ ToBoolean text = true.
Proof.
  assert (H : adapter_calls render_number create_flour flour_request <> [])
    by (vm_compute; discriminate).
  split; [exact H|].
  exact (proj2 (proj2 (proj2 (@at_most_one_call_and_reply
                                render_number create_flour flour_request)))
               H).
Defined.

Lemma reply_ends_the_trace_witness :
  exists before,
    trace (snd (handle render_number create_fails flour_request))
    = before ++ [Reply 500 failed_body]
    /\ replies before = []
    /\ calls before
       = adapter_calls render_number create_fails flour_request.
Proof.
  apply (@reply_ends_the_trace render_number create_fails flour_request
           500%Z failed_body).
  vm_compute. left. reflexivity.
Defined.

Lemma malformed_completion_replies_500_witness :
  outcome render_number create_null_content flour_request = Normal tt
  /\ sent render_number create_null_content flour_request
     = [(500%Z, failed_body)].
Proof.
  destruct (@malformed_completion_replies_500 render_number
              create_null_content flour_request flour_text
              null_content_response eq_refl ltac:(discriminate) eq_refl)
    as (Ho & _ & Hs & _).
  - right. exists (VArray [null_content_choice]), null_content_choice,
      null_content_message, VNull.
    repeat split. discriminate.
  - split; assumption.
Defined.

Lemma ingredients_have_no_outer_whitespace_witness :
  exists i,
    VObject [(lit "ingredients",
              VString (lit "Flour" ++ [10%N] ++ lit "Egg" ++ [10%N]
                       ++ lit "Salt"))]
    = VObject [(lit "ingredients", VString i)]
    /\ trim i = i.
Proof.
  destruct (@ingredients_have_no_outer_whitespace render_number create_flour
              flour_request
              (VObject [(lit "ingredients",
                         VString (lit "Flour" ++ [10%N] ++ lit "Egg"
                                  ++ [10%N] ++ lit "Salt"))]))
    as (i & Hb & Hi & _).
  - vm_compute. left. reflexivity.
  - exists i. split; assumption.
Defined.

Lemma blank_completion_gives_empty_ingredients_witness :
  forallb is_white_space blank_content = true
  /\ sent render_number create_blank flour_request
     = [(200%Z, VObject [(lit "ingredients", VString [])])].
Proof.
  split; [reflexivity|].
  exact (proj2 (@blank_completion_gives_empty_ingredients render_number
                  create_blank flour_request flour_text blank_response
                  (VArray [blank_choice]) blank_choice blank_message
                  blank_content
                  eq_refl ltac:(discriminate) eq_refl eq_refl eq_refl
                  eq_refl eq_refl eq_refl)).
Defined.

Lemma text_shadowing_toString_fails_before_call_witness :
  adapter_calls render_number create_flour shadowed_request = []
  /\ sent render_number create_flour shadowed_request
     = [(500%Z, failed_body)].
Proof.
  destruct (@text_shadowing_toString_fails_before_call render_number
              create_flour shadowed_request
              [(lit "toString", VNumber (Number_of_nat 1))]
              eq_refl eq_refl)
    as (_ & Hc & Hs & _).
  split; assumption.
Defined.

Lemma non_string_text_is_rendered_witness :
  adapter_calls render_number create_flour object_request
  = [completion_request (user_prefix ++ lit "[object Object]")].
Proof.
  exact (proj1 (proj2 (@non_string_text_is_rendered render_number
                         create_flour object_request))
               [(lit "a", VNull)] eq_refl eq_refl).
Defined.

Lemma length_logged_before_validation_witness :
  exists len,
    hd_error (trace (snd (handle render_number create_flour flour_request)))
    = Some (ConsoleLog [VString (lit "Received text length:"); len])
    /\ len = VNumber (Number_of_nat 36).
Proof.
  destruct (@length_logged_before_validation render_number create_flour
              flour_request (VString flour_text) eq_refl)
    as (len & Hh & Hs & _).
  exists len. split; [exact Hh|]. exact (Hs flour_text eq_refl).
Defined.

End ExtractIngredientsMore.

(** ** More on the OCR script *)
Module OcrMore.
Import JS Eff Ocr Observe JSFacts EffFacts MoreFacts.

Section Script.

Variable readFileSync : jsstring -> completion buffer.
Variable textDetection : buffer -> completion value.

Local Abbreviation run := (run readFileSync textDetection).

(** X10. The script reads the image first and asks for text detection at
    most once, only after the read succeeded and with exactly the bytes
    read; a failed read is followed by no request. *)
Theorem detection_follows_successful_read :
  calls (snd run) =
  match readFileSync imagePath with
  | Throw _ => [ReadFileSync imagePath]
  | Normal buf => [ReadFileSync imagePath; TextDetection buf]
  end.
Proof.
  rewrite (OcrSpec.run_cases readFileSync textDetection).
  destruct (readFileSync imagePath) as [buf|e]; [|reflexivity].
  cbv zeta.
  destruct (cbind (textDetection buf) _) as [detections|e];
    [|reflexivity].
  destruct (no_detections detections) as [[|]|e]; try reflexivity.
  destruct (cbind (Get detections (Index 0)) _); reflexivity.
Qed.

(** X11. On every path the script prints exactly one console line, and that
    line is the last thing it does. *)
Theorem exactly_one_console_line :
  exists before line,
    snd run = before ++ [line]
    /\ is_console line = true
    /\ forallb (fun e => negb (is_console e)) before = true.
Proof.
  rewrite (OcrSpec.run_cases readFileSync textDetection).
  destruct (readFileSync imagePath) as [buf|e].
  - cbv zeta.
    destruct (cbind (textDetection buf) _) as [detections|e].
    + destruct (no_detections detections) as [[|]|e].
      * do 2 eexists. repeat split.
      * destruct (cbind (Get detections (Index 0)) _);
          do 2 eexists; repeat split.
      * do 2 eexists. repeat split.
    + do 2 eexists. repeat split.
  - exists [Call (ReadFileSync imagePath)]. eexists. repeat split.
Qed.

(** X12. A detection result that is not an array holding a response object
    (an empty array, an array starting with [null] or [undefined], or a value
    that cannot be destructured) is reported as an error, not as "no text":
    the [TypeError] is caught and printed. *)
Theorem unexpected_result_is_printed_as_error
  (buf : buffer) (resolved : value) :
  readFileSync imagePath = Normal buf ->
  textDetection buf = Normal resolved ->
  (resolved = VArray []
   \/ (exists r rest, resolved = VArray (r :: rest) /\ is_nullish r = true)
   \/ ((forall l, resolved <> VArray l)
       /\ (forall s, resolved <> VString s))) ->
  run =
  (Normal tt,
   [Call (ReadFileSync imagePath); Call (TextDetection buf);
    ConsoleError [LogValue (VString (lit "Error with Google Vision API:"));
                  LogError TypeError]]).
Proof.
  intros Hr Hd Hshape.
  rewrite (OcrSpec.run_cases readFileSync textDetection), Hr. cbv zeta.
  rewrite Hd. cbn [cbind].
  destruct Hshape as [-> | [(r & rest & -> & Hn) | [Ha Hs]]].
  - reflexivity.
  - cbn [destructure_first nth cbind].
    destruct r; try discriminate Hn; reflexivity.
  - destruct resolved as [| |b|x|s|l|ps]; try reflexivity.
    + exfalso. exact (Hs s eq_refl).
    + exfalso. exact (Ha l eq_refl).
Qed.

(** X13. Only the first annotation is looked at. If it is an object without
    a [description], the script still prints the ["Text detected:"] line,
    with [undefined] as the text; if it is [null] or [undefined], reading its
    description throws and the error is printed instead. *)
Theorem first_annotation_without_description
  (buf : buffer) (resolved result first : value) (rest : list value) :
  readFileSync imagePath = Normal buf ->
  textDetection buf = Normal resolved ->
  destructure_first resolved = Normal result ->
  Get result (Name (lit "textAnnotations")) = Normal (VArray (first :: rest)) ->
  (forall props,
      first = VObject props ->
      own_prop props (lit "description") = None ->
      run =
      (Normal tt,
       [Call (ReadFileSync imagePath); Call (TextDetection buf);
        ConsoleLog [VString (lit "Text detected:" ++ [10%N]); VUndefined]]))
  /\ (is_nullish first = true ->
      run =
      (Normal tt,
       [Call (ReadFileSync imagePath); Call (TextDetection buf);
        ConsoleError
          [LogValue (VString (lit "Error with Google Vision API:"));
           LogError TypeError]])).
Proof.
  intros Hr Hd Hf Ha.
  rewrite (OcrSpec.run_cases readFileSync textDetection), Hr. cbv zeta.
  rewrite Hd. cbn [cbind]. rewrite Hf. cbn [cbind]. rewrite Ha.
  rewrite OcrSpec.no_detections_array.
  change (Get (VArray (first :: rest)) (Index 0)) with (Normal first).
  cbn [cbind]. split.
  - intros props -> Hnone. cbn [Get]. rewrite Hnone. reflexivity.
  - intros Hn. destruct first; try discriminate Hn; reflexivity.
Qed.

End Script.

Import Samples MoreSamples.

Lemma unexpected_result_is_printed_as_error_witness :
  run read_image (detect nothing_resolved) =
  (Normal tt,
   [Call (ReadFileSync imagePath); Call (TextDetection image_bytes);
    ConsoleError [LogValue (VString (lit "Error with Google Vision API:"));
                  LogError TypeError]]).
Proof.
  exact (@unexpected_result_is_printed_as_error read_image
           (detect nothing_resolved) image_bytes nothing_resolved
           eq_refl eq_refl (or_introl eq_refl)).
Defined.

Lemma first_annotation_without_description_witness :
  run read_image (detect bare_annotation) =
  (Normal tt,
   [Call (ReadFileSync imagePath); Call (TextDetection image_bytes);
    ConsoleLog [VString (lit "Text detected:" ++ [10%N]); VUndefined]]).
Proof.
  exact (proj1 (@first_annotation_without_description read_image
                  (detect bare_annotation) image_bytes bare_annotation
                  (VObject [(lit "textAnnotations", VArray [VObject []])])
                  (VObject []) [] eq_refl eq_refl eq_refl eq_refl)
               [] eq_refl eq_refl).
Defined.

End OcrMore.
